(** * ytdl.py: option synthesis, progress reporting and run summary

    A shallow embedding of [src/ytdl.py], a command-line front end that
    turns parsed flags into a yt-dlp option dictionary ([build_opts]),
    renders progress events ([progress_hook]) and prints a summary of
    the engine's result ([main]).

    Python dictionaries are finite maps from strings to dynamically
    typed values; exceptions are an explicit result type; output is a
    list of stream events. *)

From Stdlib Require Import ZArith Ascii String List.
From stdpp Require Import base option list strings pretty gmap fin_maps.

Local Open Scope string_scope.
Local Open Scope Z_scope.

(** ** Python values *)

(** Functions of the module that are stored in a dictionary. *)
Inductive callable : Type :=
| Fprogress_hook.

(** The values the program handles. [VBytes false b] is a [bytes]
    object, [VBytes true b] a [bytearray]. *)
#[warnings="-register-all"]
Inductive value : Type :=
| VNone
| VBool (b : bool)
| VInt (z : Z)
| VStr (s : string)
| VList (l : list value)
| VDict (d : gmap string value)
| VFunc (f : callable)
| VBytes (mutable : bool) (b : string).

(** Exceptions the modelled code can raise by itself. *)
Inductive exn : Type :=
| AttributeError
| TypeError.

Inductive res (A : Type) : Type :=
| Ok (x : A)
| Raise (e : exn).
Arguments Ok {A} x.
Arguments Raise {A} e.

#[global] Instance res_ret : MRet res := fun A x => Ok x.
#[global] Instance res_bind : MBind res := fun A B f m =>
  match m with
  | Ok x => f x
  | Raise e => Raise e
  end.

(** [bool(v)] *)
Definition py_truthy (v : value) : bool :=
  match v with
  | VNone => false
  | VBool b => b
  | VInt z => negb (z =? 0)
  | VStr s => negb (String.eqb s "")
  | VList l => match l with [] => false | _ => true end
  | VDict d => match size d with O => false | S _ => true end
  | VFunc _ => true
  | VBytes _ b => negb (String.eqb b "")
  end.

(** [v == s] for a string literal [s] *)
Definition py_eq_str (v : value) (s : string) : bool :=
  match v with
  | VStr t => String.eqb t s
  | _ => false
  end.

(** [d.get(k, dflt)] *)
Definition py_get (d : gmap string value) (k : string) (dflt : value) : value :=
  default dflt (d !! k).

(** [str(z)] for an [int] *)
Definition py_str_int (z : Z) : string := pretty z.

(** [d.setdefault(k, []).append(x)]: the list stored under [k] is
    mutated in place, so the dictionary sees the longer list. *)
Definition setdefault_append (k : string) (x : value) (d : gmap string value)
  : res (gmap string value) :=
  match d !! k with
  | None => Ok (<[k := VList [x]]> d)
  | Some (VList l) => Ok (<[k := VList (l ++ [x])%list]> d)
  | Some _ => Raise AttributeError
  end.

(** [d.update(l)] with [l] the items of a dict literal, in order. *)
Definition py_update (l : list (string * value)) (d : gmap string value)
  : gmap string value :=
  fold_left (fun acc kv => <[kv.1 := kv.2]> acc) l d.

(** ** Parsed command line (the [argparse] namespace) *)

Record Args : Type := mkArgs {
  url : string;
  output : string;
  template : string;
  quiet : bool;
  audio : bool;
  video : bool;
  audio_format : string;
  audio_quality : Z;
  resolution : option Z;
  allow_playlist : bool;
  safe_names : bool;
  ignore_errors : bool;
  embed_meta : bool;
  embed_thumb : bool;
  retries : Z;
  timeout : Z;
  concurrent : Z
}.

(** [bool(args.resolution)]: [None] and [0] are both falsy. *)
Definition resolution_truthy (r : option Z) : bool :=
  match r with
  | None => false
  | Some h => negb (h =? 0)
  end.

(** [str(args.resolution)], as an f-string field renders it. *)
Definition resolution_str (r : option Z) : string :=
  match r with
  | None => "None"
  | Some h => py_str_int h
  end.

(** [os.path] is a platform module; the program uses two functions. *)
Class OsPath : Type := {
  expanduser : string -> string;
  path_join : string -> string -> string
}.

Definition pp_extract_audio (codec : string) (quality : Z) : value :=
  VDict (list_to_map [("key", VStr "FFmpegExtractAudio");
                      ("preferredcodec", VStr codec);
                      ("preferredquality", VStr (py_str_int quality))]).

Definition pp_metadata : value :=
  VDict (list_to_map [("key", VStr "FFmpegMetadata")]).

Definition pp_thumbnail : value :=
  VDict (list_to_map [("key", VStr "EmbedThumbnail")]).

Section BuildOpts.
Context `{OsPath}.

Definition base_opts (a : Args) : gmap string value :=
  let outtmpl := path_join (expanduser (output a)) (template a) in
  list_to_map [
    ("outtmpl", VDict (list_to_map [("default", VStr outtmpl)]));
    ("noplaylist", VBool (negb (allow_playlist a)));
    ("nocheckcertificate", VBool true);
    ("progress_hooks", VList [VFunc Fprogress_hook]);
    ("restrictfilenames", VBool (safe_names a));
    ("ignoreerrors", VBool (ignore_errors a));
    ("concurrent_fragment_downloads", VInt (concurrent a));
    ("quiet", VBool (quiet a));
    ("no_warnings", VBool (quiet a))
  ].

Definition retry_items (a : Args) : list (string * value) :=
  [("retries", VInt (retries a));
   ("file_access_retries", VInt (retries a));
   ("fragment_retries", VInt (retries a));
   ("socket_timeout", VInt (timeout a))].

Definition build_opts (a : Args) : res (gmap string value) :=
  let opts := base_opts a in
  opts ←
    (if audio a then
       let opts := <["format" := VStr "bestaudio/best"]> opts in
       let post := [pp_extract_audio (audio_format a) (audio_quality a)] in
       let post := if embed_meta a then (post ++ [pp_metadata])%list else post in
       let post := if embed_thumb a then (post ++ [pp_thumbnail])%list else post in
       Ok (<["postprocessors" := VList post]> opts)
     else
       let fmt :=
         if resolution_truthy (resolution a)
         then "bestvideo[ext=mp4][height<=" ++ resolution_str (resolution a)
              ++ "]+bestaudio[ext=m4a]/best[ext=mp4]/best"
         else "bestvideo[ext=mp4]+bestaudio[ext=m4a]/best[ext=mp4]/best" in
       let opts := <["format" := VStr fmt]> opts in
       let opts := <["merge_output_format" := VStr "mp4"]> opts in
       opts ← (if embed_meta a
               then setdefault_append "postprocessors" pp_metadata opts
               else Ok opts);
       if embed_thumb a
       then setdefault_append "postprocessors" pp_thumbnail opts
       else Ok opts);
  Ok (py_update (retry_items a) opts).

End BuildOpts.

(** ** Text helpers

    A string is a sequence of code points below 256. *)

Definition LF : string := String "010"%char "".
Definition CR : string := String "013"%char "".

(** [str.isspace] on one code point *)
Definition is_space (c : ascii) : bool :=
  let n := nat_of_ascii c in
  ((9 <=? n) && (n <=? 13) || (28 <=? n) && (n <=? 32)
   || (n =? 133) || (n =? 160))%nat.

Fixpoint lstrip (s : string) : string :=
  match s with
  | "" => ""
  | String c s' => if is_space c then lstrip s' else s
  end.

Fixpoint rstrip (s : string) : string :=
  match s with
  | "" => ""
  | String c s' =>
      match rstrip s' with
      | "" => if is_space c then "" else String c ""
      | r => String c r
      end
  end.

(** [s.strip()] *)
Definition strip (s : string) : string := lstrip (rstrip s).

Fixpoint spaces (n : nat) : string :=
  match n with
  | O => ""
  | S n' => String " "%char (spaces n')
  end.

(** [format(s, ">w")]: pad on the left with blanks up to width [w];
    a longer string is left as it is. *)
Definition rjust (w : nat) (s : string) : string :=
  spaces (w - String.length s)%nat ++ s.

(** [bytes.strip] removes ASCII whitespace only. *)
Definition is_space_ascii (c : ascii) : bool :=
  let n := nat_of_ascii c in
  ((9 <=? n) && (n <=? 13) || (n =? 32))%nat.

Fixpoint bytes_lstrip (b : string) : string :=
  match b with
  | "" => ""
  | String c b' => if is_space_ascii c then bytes_lstrip b' else b
  end.

Fixpoint bytes_rstrip (b : string) : string :=
  match b with
  | "" => ""
  | String c b' =>
      match bytes_rstrip b' with
      | "" => if is_space_ascii c then "" else String c ""
      | r => String c r
      end
  end.

Definition bytes_strip (b : string) : string := bytes_lstrip (bytes_rstrip b).

(** What a [strip()] call can return: a [str], or a [bytes] or
    [bytearray] object. *)
Inductive text : Type :=
| TStr (s : string)
| TBytes (mutable : bool) (b : string).

(** [v.strip()]: [str], [bytes] and [bytearray] have the method, the
    other values raise [AttributeError]. *)
Definition py_strip (v : value) : res text :=
  match v with
  | VStr s => Ok (TStr (strip s))
  | VBytes m b => Ok (TBytes m (bytes_strip b))
  | _ => Raise AttributeError
  end.

(** The f-string field [{t:>w}], that is [format(t, ">w")]: a [str] is
    right-aligned; [bytes] and [bytearray] take no format string and
    raise [TypeError]. *)
Definition py_format_right (w : nat) (t : text) : res string :=
  match t with
  | TStr s => Ok (rjust w s)
  | TBytes _ _ => Raise TypeError
  end.

(** ** Output streams *)

Inductive stream : Type :=
| Stdout
| Stderr.

Inductive io : Type :=
| Write (f : stream) (s : string)
| Flush (f : stream).

(** [print(s, end=e, file=f, flush=fl)] *)
Definition py_print (f : stream) (s e : string) (fl : bool) : list io :=
  (Write f (s ++ e) :: (if fl then [Flush f] else []))%list.

(** ** Progress reporter *)

Definition progress_hook (d : gmap string value) : res (list io) :=
  if py_eq_str (py_get d "status" VNone) "downloading" then
    pct ← py_strip (py_get d "_percent_str" (VStr ""));
    spd ← py_strip (py_get d "_speed_str" (VStr ""));
    eta ← py_strip (py_get d "_eta_str" (VStr ""));
    fpct ← py_format_right 6 pct;
    fspd ← py_format_right 8 spd;
    feta ← py_format_right 6 eta;
    let line := CR ++ "Downloading: " ++ fpct
                ++ "  Speed: " ++ fspd
                ++ "  ETA: " ++ feta in
    Ok (py_print Stdout line "" true)
  else if py_eq_str (py_get d "status" VNone) "finished" then
    Ok (py_print Stdout (LF ++ "Download finished, post-processing...") LF false)
  else
    Ok [].

(** ** Run orchestration and summary *)

(** [repr] of containers and functions depends on escaping rules and
    object addresses; it is left to the interpreter. *)
Class PyRepr : Type := {
  repr_object : value -> string
}.

(** [str(v)], as an f-string field renders it *)
Definition py_str `{PyRepr} (v : value) : string :=
  match v with
  | VNone => "None"
  | VBool true => "True"
  | VBool false => "False"
  | VInt z => py_str_int z
  | VStr s => s
  | _ => repr_object v
  end.

(** [for e in v]: the elements a loop visits. Dictionary keys come in
    the map's order, not in insertion order. *)
Definition py_iter (v : value) : res (list value) :=
  match v with
  | VList l => Ok l
  | VStr s => Ok ((fun c => VStr (String c "")) <$> list_ascii_of_string s)
  | VDict d => Ok ((fun kv => VStr kv.1) <$> map_to_list d)
  | VBytes _ b =>
      Ok ((fun c => VInt (Z.of_nat (nat_of_ascii c))) <$> list_ascii_of_string b)
  | _ => Raise TypeError
  end.

(** How the engine call of [main] ends: with a result, with a
    [DownloadError], with another [Exception], or with an exception
    that is not an [Exception] ([SystemExit], [KeyboardInterrupt]);
    [code] is the status the process ends with in that case. *)
Inductive engine_outcome : Type :=
| Returned (info : value)
| RaisedDownloadError (msg : string)
| RaisedException (msg : string)
| RaisedBaseException (code : Z).

(** The engine call as the program sees it. Before the call ends the
    engine may hand progress events to the registered hooks, any number
    of times; after each event it goes on according to whether a hook
    raised. *)
Inductive engine_run : Type :=
| Done (o : engine_outcome)
| Emit (d : gmap string value) (k : option exn -> engine_run).

(** The [yt_dlp] module as the program uses it. *)
Record Engine : Type := {
  extract_info : gmap string value -> string -> engine_run;
  prepare_filename : gmap string value -> string
}.

(** The callables registered under ["progress_hooks"]. *)
Definition hooks_of (opts : gmap string value) : list callable :=
  match opts !! "progress_hooks" with
  | Some (VList l) =>
      omap (fun v => match v with VFunc f => Some f | _ => None end) l
  | _ => []
  end.

Definition call (f : callable) (d : gmap string value) : res (list io) :=
  match f with
  | Fprogress_hook => progress_hook d
  end.

(** The engine calls the hooks in order with the event; the first one
    that raises ends the round. *)
Fixpoint call_hooks (hs : list callable) (d : gmap string value)
  : list io * option exn :=
  match hs with
  | [] => ([], None)
  | h :: hs' =>
      match call h d with
      | Ok out =>
          let '(out', e) := call_hooks hs' d in ((out ++ out')%list, e)
      | Raise e => ([], Some e)
      end
  end.

(** The engine call with the hooks [hs] registered: what the hooks
    write while it runs, and how it ends. *)
Fixpoint run_engine (hs : list callable) (r : engine_run)
  : list io * engine_outcome :=
  match r with
  | Done o => ([], o)
  | Emit d k =>
      let '(out, e) := call_hooks hs d in
      let '(out', o) := run_engine hs (k e) in
      ((out ++ out')%list, o)
  end.

(** What [argparse] does with the command line: a namespace, or its
    own exit with status 2 (usage error) or 0 (help). *)
Inductive parse_result : Type :=
| Parsed (a : Args)
| UsageError (out : list io)
| HelpRequested (out : list io).

Inductive uncaught : Type :=
| UncaughtExn (e : exn)
| UncaughtOSError
| UncaughtBaseException (code : Z).

(** How the process ends: an exit status set by the program (a
    [sys.exit] call, or 0 when the script runs to its end), or an
    exception nobody caught, which the interpreter reports. *)
Inductive status : Type :=
| Exited (code : Z)
| Uncaught (u : uncaught).

(** The exit status of the process. The interpreter prints the
    traceback of an uncaught [Exception] and ends the process with
    status 1. *)
Definition exit_code (s : status) : Z :=
  match s with
  | Exited code => code
  | Uncaught (UncaughtBaseException code) => code
  | Uncaught _ => 1
  end.

Definition import_error_message : string :=
  "Error: yt-dlp is not installed. Install with:" ++ LF
  ++ "  pip install -U yt-dlp" ++ LF
  ++ "or (macOS) brew install yt-dlp".

Section Main.
Context `{OsPath} `{PyRepr}.
(** [parse_args]: the command line as [argparse] reads it. *)
Variable parse_args : list string -> parse_result.
(** [Path.mkdir(parents=True, exist_ok=True)]: [true] when it
    returns, [false] when it raises [OSError]. *)
Variable mkdir : string -> bool.

Definition summarize (ydl : Engine) (entry : value) : res string :=
  match entry with
  | VDict e =>
      let title := py_get e "title" (VStr "Unknown Title") in
      let fn := prepare_filename ydl e in
      Ok ("Saved: " ++ py_str title ++ LF ++ " -> " ++ fn)
  | _ => Raise AttributeError
  end.

(** The loop over the playlist entries: what it prints, and how it
    ends. *)
Fixpoint print_entries (ydl : Engine) (es : list value) : list io * res unit :=
  match es with
  | [] => ([], Ok tt)
  | e :: es' =>
      if py_truthy e then
        match summarize ydl e with
        | Ok s =>
            let '(out, r) := print_entries ydl es' in
            ((py_print Stdout s LF false ++ out)%list, r)
        | Raise x => ([], Raise x)
        end
      else print_entries ydl es'
  end.

Definition print_summary (ydl : Engine) (info : value) : list io * res unit :=
  match info with
  | VNone => (py_print Stdout "Nothing was downloaded." LF false, Ok tt)
  | VDict d =>
      if py_eq_str (py_get d "_type" VNone) "playlist" then
        let header :=
          py_print Stdout
            (LF ++ "Playlist: " ++ py_str (py_get d "title" (VStr "(unknown)")))
            LF false in
        match py_iter (py_get d "entries" (VList [])) with
        | Ok es =>
            let '(out, r) := print_entries ydl es in
            ((header ++ out)%list, r)
        | Raise x => (header, Raise x)
        end
      else
        match summarize ydl info with
        | Ok s => (py_print Stdout (LF ++ s) LF false, Ok tt)
        | Raise x => ([], Raise x)
        end
  | _ => ([], Raise AttributeError)
  end.

(** [main]: what the program's code writes during the run (the hook
    while the engine call runs, then the messages and the summary of
    [main] itself) and how the process ends. What the engine prints by
    itself is not part of it. *)
Definition main (ydl : Engine) (argv : list string) : list io * status :=
  match parse_args argv with
  | UsageError out => (out, Exited 2)
  | HelpRequested out => (out, Exited 0)
  | Parsed args =>
      let outdir := expanduser (output args) in
      if mkdir outdir then
        match build_opts args with
        | Raise e => ([], Uncaught (UncaughtExn e))
        | Ok ydl_opts =>
            let '(progress, o) :=
              run_engine (hooks_of ydl_opts)
                (extract_info ydl ydl_opts (url args)) in
            match o with
            | RaisedDownloadError e =>
                ((progress
                  ++ py_print Stderr (LF ++ "DownloadError: " ++ e) LF false)%list,
                 Exited 1)
            | RaisedException e =>
                ((progress
                  ++ py_print Stderr (LF ++ "Unexpected error: " ++ e) LF false)%list,
                 Exited 1)
            | RaisedBaseException code =>
                (progress, Uncaught (UncaughtBaseException code))
            | Returned info =>
                let '(out, r) := print_summary ydl info in
                ((progress ++ out)%list,
                 match r with
                 | Ok _ => Exited 0
                 | Raise e => Uncaught (UncaughtExn e)
                 end)
            end
        end
      else ([], Uncaught UncaughtOSError)
  end.

(** The module run as a script: the import guard, then [main()].
    [yt_dlp] is [None] when the import fails. *)
Definition script (yt_dlp : option Engine) (argv : list string)
  : list io * status :=
  match yt_dlp with
  | None => (py_print Stderr import_error_message LF false, Exited 1)
  | Some ydl => main ydl argv
  end.

(** The engine call of a run: the module was imported, the command
    line parsed, the directory made, and the call ended with [o] after
    the hooks wrote [progress]. *)
Definition engine_call (yt_dlp : option Engine) (argv : list string)
    (progress : list io) (o : engine_outcome) : Prop :=
  exists ydl a opts,
    yt_dlp = Some ydl
    /\ parse_args argv = Parsed a
    /\ mkdir (expanduser (output a)) = true
    /\ build_opts a = Ok opts
    /\ run_engine (hooks_of opts) (extract_info ydl opts (url a))
       = (progress, o).

(** The output directory of an accepted command line cannot be made. *)
Definition mkdir_fails (yt_dlp : option Engine) (argv : list string) : Prop :=
  exists ydl a,
    yt_dlp = Some ydl
    /\ parse_args argv = Parsed a
    /\ mkdir (expanduser (output a)) = false.

(** The engine call returns, and printing the summary raises. *)
Definition summary_fails (yt_dlp : option Engine) (argv : list string)
  : Prop :=
  exists ydl progress info out x,
    yt_dlp = Some ydl
    /\ engine_call yt_dlp argv progress (Returned info)
    /\ print_summary ydl info = (out, Raise x).

End Main.

(** ** [os.path] on POSIX *)

(** The part of the process environment [posixpath.expanduser] reads. *)
Record PosixEnv : Type := {
  env_HOME : option string;
  pw_dir_self : option string;
  pw_dir_of : string -> option string
}.

Fixpoint endswith_char (c : ascii) (s : string) : bool :=
  match s with
  | "" => false
  | String x "" => Ascii.eqb x c
  | String _ s' => endswith_char c s'
  end.

Fixpoint rstrip_char (c : ascii) (s : string) : string :=
  match s with
  | "" => ""
  | String x s' =>
      match rstrip_char c s' with
      | "" => if Ascii.eqb x c then "" else String x ""
      | r => String x r
      end
  end.

(** [posixpath.join(a, b)] *)
Definition posix_join (a b : string) : string :=
  if String.prefix "/" b then b
  else if String.eqb a "" || endswith_char "/" a then a ++ b
  else a ++ "/" ++ b.

(** [posixpath.expanduser(path)] *)
Definition posix_expanduser (env : PosixEnv) (path : string) : string :=
  if negb (String.prefix "~" path) then path
  else
    let n := String.length path in
    let i := default n (String.index 1 "/" path) in
    let userhome :=
      if (i =? 1)%nat then
        match env_HOME env with
        | Some h => Some h
        | None => pw_dir_self env
        end
      else pw_dir_of env (String.substring 1 (i - 1) path) in
    match userhome with
    | None => path
    | Some h =>
        let r := rstrip_char "/" h ++ String.substring i (n - i) path in
        if String.eqb r "" then "/" else r
    end.

Definition posix_path (env : PosixEnv) : OsPath :=
  {| expanduser := posix_expanduser env; path_join := posix_join |}.

(** ** Vocabulary of the properties *)

(** The step list the engine applies: the value under
    ["postprocessors"], no step when the key is not set. *)
Definition steps_of (opts : gmap string value) : list value :=
  match opts !! "postprocessors" with
  | Some (VList l) => l
  | _ => []
  end.

(** The name of a post-processing step. *)
Definition step_key (v : value) : option string :=
  match v with
  | VDict d =>
      match d !! "key" with
      | Some (VStr s) => Some s
      | _ => None
      end
  | _ => None
  end.

(** The steps in their fixed relative order, each under its condition. *)
Definition expected_steps (a : Args) : list value :=
  ((if audio a
    then [pp_extract_audio (audio_format a) (audio_quality a)] else [])
   ++ (if embed_meta a then [pp_metadata] else [])
   ++ (if embed_thumb a then [pp_thumbnail] else []))%list.

Definition step_order : list (option string) :=
  [Some "FFmpegExtractAudio"; Some "FFmpegMetadata"; Some "EmbedThumbnail"].

(** The text of a display field: the string the event carries, empty
    when the event has no such field. *)
Definition field (d : gmap string value) (k : string) : string :=
  match d !! k with
  | Some (VStr s) => s
  | _ => ""
  end.

(** A display field that has a [strip] method or is missing. *)
Definition has_strip (d : gmap string value) (k : string) : Prop :=
  match d !! k with
  | None => True
  | Some (VStr _) => True
  | Some (VBytes _ _) => True
  | Some _ => False
  end.

(** A display field that is a string or is missing. *)
Definition str_or_absent (d : gmap string value) (k : string) : Prop :=
  match d !! k with
  | None => True
  | Some (VStr _) => True
  | Some _ => False
  end.

Definition downloading_line (pct spd eta : string) : string :=
  CR ++ "Downloading: " ++ rjust 6 (strip pct)
  ++ "  Speed: " ++ rjust 8 (strip spd)
  ++ "  ETA: " ++ rjust 6 (strip eta).

(** A ["downloading"] event whose percent field is [None]. *)
Definition event_none_percent : gmap string value :=
  list_to_map [("status", VStr "downloading");
               ("_percent_str", VNone);
               ("_speed_str", VStr "1.2MiB/s");
               ("_eta_str", VStr "00:30")].

(** The block printed for one item. *)
Definition item_block `{PyRepr} (ydl : Engine) (e : gmap string value) : string :=
  "Saved: " ++ py_str (py_get e "title" (VStr "Unknown Title"))
  ++ LF ++ " -> " ++ prepare_filename ydl e.

Definition block_of `{PyRepr} (ydl : Engine) (v : value) : string :=
  match v with
  | VDict e => item_block ydl e
  | _ => ""
  end.

(** A playlist entry: an item record, or [None] for a skipped item. *)
Definition entry_ok (v : value) : Prop :=
  v = VNone \/ exists e, v = VDict e.

(** The keys [build_opts] sets in every configuration. *)
Definition common_keys : gset string :=
  list_to_set ["outtmpl"; "noplaylist"; "nocheckcertificate"; "progress_hooks";
               "restrictfilenames"; "ignoreerrors";
               "concurrent_fragment_downloads"; "quiet"; "no_warnings";
               "format"; "retries"; "file_access_retries";
               "fragment_retries"; "socket_timeout"].

(** The value of [fmt] in the video branch of [build_opts]. *)
Definition video_fmt (r : option Z) : string :=
  if resolution_truthy r
  then "bestvideo[ext=mp4][height<=" ++ resolution_str r
       ++ "]+bestaudio[ext=m4a]/best[ext=mp4]/best"
  else "bestvideo[ext=mp4]+bestaudio[ext=m4a]/best[ext=mp4]/best".

(** A string of whitespace only. *)
Fixpoint all_space (s : string) : bool :=
  match s with
  | "" => true
  | String c s' => is_space c && all_space s'
  end.

(** The three display fields of a progress event. *)
Definition display_key (k : string) : Prop :=
  k = "_percent_str" \/ k = "_speed_str" \/ k = "_eta_str".

(** A write to standard output. *)
Definition stdout_write (ev : io) : Prop := exists s, ev = Write Stdout s.

(** A write to standard output, or a flush of it. *)
Definition on_stdout (ev : io) : Prop :=
  ev = Flush Stdout \/ exists s, ev = Write Stdout s.

(** A result descriptor as the engine documents it: nothing, one item,
    or a playlist whose entries are items or [None]. *)
Definition well_formed_info (info : value) : Prop :=
  info = VNone
  \/ exists d, info = VDict d
       /\ (py_get d "_type" VNone <> VStr "playlist"
           \/ exists es, py_get d "entries" (VList []) = VList es
                /\ Forall entry_ok es).

(** The header line of a playlist summary. *)
Definition playlist_header `{PyRepr} (d : gmap string value) : io :=
  Write Stdout
    (LF ++ "Playlist: " ++ py_str (py_get d "title" (VStr "(unknown)")) ++ LF).

(** The line group printed for a present entry. *)
Definition block_line `{PyRepr} (ydl : Engine) (v : value) : io :=
  Write Stdout (block_of ydl v ++ LF).

(** ** Sample inputs *)

Definition sample_env : PosixEnv :=
  {| env_HOME := Some "/home/user";
     pw_dir_self := None;
     pw_dir_of := fun _ => None |}.

Definition sample_path : OsPath := posix_path sample_env.

(** [ytdl.py URL -o ~/Downloads -r 720 --embed-meta] *)
Definition sample_video : Args :=
  {| url := "https://example.org/watch?v=1";
     output := "~/Downloads"; template := "%(title)s.%(ext)s";
     quiet := false; audio := false; video := false;
     audio_format := "mp3"; audio_quality := 0; resolution := Some 720;
     allow_playlist := false; safe_names := false; ignore_errors := false;
     embed_meta := true; embed_thumb := false;
     retries := 5; timeout := 30; concurrent := 4 |}.

(** [ytdl.py URL --audio --audio-format flac --embed-meta] *)
Definition sample_audio : Args :=
  {| url := "https://example.org/watch?v=1";
     output := "./downloads"; template := "%(title)s.%(ext)s";
     quiet := false; audio := true; video := false;
     audio_format := "flac"; audio_quality := 0; resolution := None;
     allow_playlist := false; safe_names := false; ignore_errors := false;
     embed_meta := true; embed_thumb := false;
     retries := 5; timeout := 30; concurrent := 4 |}.

(** The progress event of the specification's example. *)
Definition sample_event : gmap string value :=
  list_to_map [("status", VStr "downloading");
               ("_percent_str", VStr "45.2%");
               ("_speed_str", VStr "1.2MiB/s");
               ("_eta_str", VStr "00:30")].

Definition sample_repr : PyRepr := {| repr_object := fun _ => "<object>" |}.

(** A playlist of three entries, the second one skipped. *)
Definition sample_entries : list value :=
  [VDict (list_to_map [("title", VStr "First")]);
   VNone;
   VDict (list_to_map [("title", VStr "Third")])].

Definition sample_playlist : gmap string value :=
  list_to_map [("_type", VStr "playlist");
               ("title", VStr "Mix");
               ("entries", VList sample_entries)].

(** An engine that downloads nothing. *)
Definition idle_engine : Engine :=
  {| extract_info := fun _ _ => Done (Returned VNone);
     prepare_filename := fun _ => "out.mp4" |}.

(** A ["downloading"] event without display fields. *)
Definition event_status_only : gmap string value :=
  list_to_map [("status", VStr "downloading")].

(** [sample_video] with [-r 1080]. *)
Definition sample_video_1080 : Args :=
  {| url := "https://example.org/watch?v=1";
     output := "~/Downloads"; template := "%(title)s.%(ext)s";
     quiet := false; audio := false; video := false;
     audio_format := "mp3"; audio_quality := 0; resolution := Some 1080;
     allow_playlist := false; safe_names := false; ignore_errors := false;
     embed_meta := true; embed_thumb := false;
     retries := 5; timeout := 30; concurrent := 4 |}.

(** A playlist whose second entry is a string instead of a record. *)
Definition sample_bad_playlist : gmap string value :=
  list_to_map [("_type", VStr "playlist");
               ("title", VStr "Mix");
               ("entries",
                VList [VDict (list_to_map [("title", VStr "First")]);
                       VStr "oops";
                       VNone])].

(** A playlist record without entries. *)
Definition sample_empty_playlist : gmap string value :=
  list_to_map [("_type", VStr "playlist"); ("title", VStr "Mix")].

(** An item whose title is [None]. *)
Definition sample_untitled_item : gmap string value :=
  list_to_map [("id", VStr "abc"); ("title", VNone)].

(** What the hook writes for [sample_event]. *)
Definition sample_progress : list io :=
  [Write Stdout (CR ++ "Downloading:  45.2%  Speed: 1.2MiB/s  ETA:  00:30");
   Flush Stdout].

(** The event that ends a transfer. *)
Definition sample_finished_event : gmap string value :=
  list_to_map [("status", VStr "finished")].

(** An engine whose download fails after one progress event. *)
Definition failing_engine : Engine :=
  {| extract_info := fun _ _ =>
       Emit sample_event
         (fun _ => Done (RaisedDownloadError "connection lost"));
     prepare_filename := fun _ => "out.mp4" |}.

(** An engine that reports progress and returns the sample playlist. *)
Definition playlist_engine : Engine :=
  {| extract_info := fun _ _ =>
       Emit sample_event
         (fun _ => Emit sample_finished_event
                     (fun _ => Done (Returned (VDict sample_playlist))));
     prepare_filename := fun _ => "out.mp4" |}.

(** Case analysis on the three flags [build_opts] branches on, then
    evaluation of the dictionary operations on the concrete keys. *)
Ltac build_cases a :=
  unfold build_opts;
  destruct (audio a) eqn:?, (embed_meta a) eqn:?, (embed_thumb a) eqn:?;
  try discriminate.

Ltac by_lookup :=
  eexists; split; [reflexivity | repeat split; try reflexivity].

(** * Properties *)

(** ** Configuration synthesis *)

Lemma setdefault_append_fresh k x (d : gmap string value) :
  d !! k = None -> setdefault_append k x d = Ok (<[k := VList [x]]> d).
Proof. intros Hk. unfold setdefault_append. now rewrite Hk. Qed.

Lemma setdefault_append_list k x l (d : gmap string value) :
  d !! k = Some (VList l) ->
  setdefault_append k x d = Ok (<[k := VList (l ++ [x])%list]> d).
Proof. intros Hk. unfold setdefault_append. now rewrite Hk. Qed.

Lemma resolution_truthy_nonzero (r : option Z) :
  r <> Some 0 ->
  resolution_truthy r = match r with Some _ => true | None => false end.
Proof.
  destruct r as [h|]; [|reflexivity]. intros Hr. simpl.
  destruct (Z.eqb_spec h 0) as [->|]; [now destruct Hr | reflexivity].
Qed.

Section BuildOptsFacts.
Context `{OsPath}.

(** [build_opts] never raises. *)
Lemma build_opts_total (a : Args) : exists opts, build_opts a = Ok opts.
Proof. build_cases a; eexists; reflexivity. Qed.

(** A height cap of [0] is falsy and selects the uncapped expression. *)
Lemma video_format_zero_cap (a : Args) :
  audio a = false -> resolution a = Some 0 ->
  exists opts, build_opts a = Ok opts
    /\ opts !! "format"
       = Some (VStr "bestvideo[ext=mp4]+bestaudio[ext=m4a]/best[ext=mp4]/best").
Proof.
  intros Ha Hr. build_cases a; rewrite Hr; by_lookup.
Qed.

(** C1: in video mode the format expression is the height-capped
    three-tier fallback with the cap written in decimal when a
    (non-zero) cap is given and the uncapped one when none is given;
    the merge container is ["mp4"] in both cases. *)
Theorem video_format_selection (a : Args) :
  audio a = false ->
  resolution a <> Some 0 ->
  exists opts, build_opts a = Ok opts
    /\ opts !! "format"
       = Some (VStr match resolution a with
                    | Some h =>
                        "bestvideo[ext=mp4][height<=" ++ py_str_int h
                        ++ "]+bestaudio[ext=m4a]/best[ext=mp4]/best"
                    | None =>
                        "bestvideo[ext=mp4]+bestaudio[ext=m4a]/best[ext=mp4]/best"
                    end)
    /\ opts !! "merge_output_format" = Some (VStr "mp4").
Proof.
  intros Ha Hr. build_cases a;
    rewrite (resolution_truthy_nonzero _ Hr);
    destruct (resolution a); by_lookup.
Qed.

(** C2: in audio mode the format expression is ["bestaudio/best"] and
    the step list starts with the audio extraction step, whose codec is
    the configured audio format and whose quality is the configured
    quality written as a string, [0] included, whatever the other
    flags are. *)
Theorem audio_format_and_extraction (a : Args) :
  audio a = true ->
  exists opts rest, build_opts a = Ok opts
    /\ opts !! "format" = Some (VStr "bestaudio/best")
    /\ opts !! "postprocessors"
       = Some (VList
                 (VDict (list_to_map
                           [("key", VStr "FFmpegExtractAudio");
                            ("preferredcodec", VStr (audio_format a));
                            ("preferredquality",
                             VStr (py_str_int (audio_quality a)))])
                  :: rest))
    /\ (audio_quality a = 0 -> py_str_int (audio_quality a) = "0").
Proof.
  intros Ha.
  assert (Hq : audio_quality a = 0 -> py_str_int (audio_quality a) = "0")
    by (intros ->; reflexivity).
  build_cases a; eexists; eexists;
    (split; [reflexivity | repeat split; try reflexivity; exact Hq]).
Qed.

(** C4: the retry option fans out to the three retry counts and the
    timeout is passed on, in both modes. *)
Theorem retries_fan_out (a : Args) :
  exists opts, build_opts a = Ok opts
    /\ opts !! "retries" = Some (VInt (retries a))
    /\ opts !! "file_access_retries" = Some (VInt (retries a))
    /\ opts !! "fragment_retries" = Some (VInt (retries a))
    /\ opts !! "socket_timeout" = Some (VInt (timeout a)).
Proof. build_cases a; by_lookup. Qed.

(** C5: the output template is the user-expanded directory joined with
    the template as given, and the base fields come from the flags:
    playlists are off unless allowed, and [quiet] sets both [quiet]
    and [no_warnings]. *)
Theorem base_fields (a : Args) :
  exists opts, build_opts a = Ok opts
    /\ opts !! "outtmpl"
       = Some (VDict (list_to_map
                 [("default",
                   VStr (path_join (expanduser (output a)) (template a)))]))
    /\ opts !! "noplaylist" = Some (VBool (negb (allow_playlist a)))
    /\ opts !! "restrictfilenames" = Some (VBool (safe_names a))
    /\ opts !! "ignoreerrors" = Some (VBool (ignore_errors a))
    /\ opts !! "concurrent_fragment_downloads" = Some (VInt (concurrent a))
    /\ opts !! "quiet" = Some (VBool (quiet a))
    /\ opts !! "no_warnings" = Some (VBool (quiet a)).
Proof. build_cases a; by_lookup. Qed.

(** C10: certificate checking is switched off in every configuration. *)
Theorem nocheckcertificate_always (a : Args) :
  exists opts, build_opts a = Ok opts
    /\ opts !! "nocheckcertificate" = Some (VBool true).
Proof. build_cases a; by_lookup. Qed.

End BuildOptsFacts.

Lemma step_key_extract codec quality :
  step_key (pp_extract_audio codec quality) = Some "FFmpegExtractAudio".
Proof. reflexivity. Qed.

Lemma expected_steps_keys (a : Args) :
  step_key <$> expected_steps a
  = ((if audio a then [Some "FFmpegExtractAudio"] else [])
     ++ (if embed_meta a then [Some "FFmpegMetadata"] else [])
     ++ (if embed_thumb a then [Some "EmbedThumbnail"] else []))%list.
Proof.
  unfold expected_steps.
  destruct (audio a), (embed_meta a), (embed_thumb a); reflexivity.
Qed.

Lemma expected_steps_ordered (a : Args) :
  sublist (step_key <$> expected_steps a) step_order.
Proof.
  rewrite expected_steps_keys. unfold step_order.
  destruct (audio a), (embed_meta a), (embed_thumb a); simpl;
    repeat first [apply sublist_nil | apply sublist_skip | apply sublist_cons].
Qed.

Lemma expected_steps_member (a : Args) (k : string) :
  Some k ∈ step_key <$> expected_steps a <->
  (k = "FFmpegExtractAudio" /\ audio a = true)
  \/ (k = "FFmpegMetadata" /\ embed_meta a = true)
  \/ (k = "EmbedThumbnail" /\ embed_thumb a = true).
Proof.
  rewrite expected_steps_keys.
  destruct (audio a), (embed_meta a), (embed_thumb a); simpl;
    rewrite ?elem_of_cons, ?elem_of_nil;
    intuition (try congruence; try discriminate).
Qed.

Section StepOrder.
Context `{OsPath}.

(** C3: the step list is audio extraction (audio mode only), then
    metadata embedding (iff [embed_meta]), then thumbnail embedding
    (iff [embed_thumb]); a step that is left out does not move the
    others. With no step at all (video mode, neither flag) the key is
    not set. *)
Theorem postprocessor_order (a : Args) :
  exists opts, build_opts a = Ok opts
    /\ steps_of opts = expected_steps a
    /\ opts !! "postprocessors"
       = match expected_steps a with
         | [] => None
         | l => Some (VList l)
         end
    /\ sublist (step_key <$> steps_of opts) step_order
    /\ (Some "FFmpegExtractAudio" ∈ step_key <$> steps_of opts
        <-> audio a = true)
    /\ (Some "FFmpegMetadata" ∈ step_key <$> steps_of opts
        <-> embed_meta a = true)
    /\ (Some "EmbedThumbnail" ∈ step_key <$> steps_of opts
        <-> embed_thumb a = true).
Proof.
  assert (Hsteps : exists opts, build_opts a = Ok opts
            /\ steps_of opts = expected_steps a
            /\ opts !! "postprocessors"
               = match expected_steps a with
                 | [] => None
                 | l => Some (VList l)
                 end).
  { unfold expected_steps, steps_of. build_cases a; by_lookup. }
  destruct Hsteps as (opts & Hb & Hs & Hl).
  exists opts. rewrite Hs.
  split; [exact Hb|]. split; [reflexivity|]. split; [exact Hl|].
  split; [apply expected_steps_ordered|].
  rewrite !expected_steps_member.
  repeat split; intuition (try congruence; try discriminate).
Qed.

End StepOrder.

(** ** Progress reporter *)

Lemma length_spaces (n : nat) : String.length (spaces n) = n.
Proof. induction n as [|n IH]; simpl; [reflexivity | now rewrite IH]. Qed.

Lemma length_app_string (s t : string) :
  String.length (s ++ t) = (String.length s + String.length t)%nat.
Proof.
  induction s as [|c s IH]; [reflexivity|].
  change (S (String.length (s ++ t)) = S (String.length s + String.length t)).
  now rewrite IH.
Qed.

Lemma append_nil_r (s : string) : s ++ "" = s.
Proof.
  induction s as [|c s IH]; [reflexivity|].
  change (String c (s ++ "") = String c s). now rewrite IH.
Qed.

Lemma append_assoc (s t u : string) : (s ++ t) ++ u = s ++ t ++ u.
Proof.
  induction s as [|c s IH]; [reflexivity|].
  change (String c ((s ++ t) ++ u) = String c (s ++ t ++ u)). now rewrite IH.
Qed.

(** A right-aligned field is the text behind blanks, at least [w] wide. *)
Lemma rjust_length (w : nat) (s : string) :
  String.length (rjust w s) = Nat.max w (String.length s).
Proof.
  unfold rjust. rewrite length_app_string, length_spaces. lia.
Qed.

Lemma rjust_fits (w : nat) (s : string) :
  (String.length s <= w)%nat ->
  rjust w s = spaces (w - String.length s) ++ s
  /\ String.length (rjust w s) = w.
Proof. intros Hs. split; [reflexivity|]. rewrite rjust_length. lia. Qed.

Lemma py_strip_field (d : gmap string value) (k : string) :
  str_or_absent d k ->
  py_strip (py_get d k (VStr "")) = Ok (TStr (strip (field d k))).
Proof.
  unfold str_or_absent, py_get, field.
  destruct (d !! k) as [[]|]; simpl; intros Hk; (reflexivity || contradiction).
Qed.

Lemma py_eq_str_true (v : value) (s : string) :
  py_eq_str v s = true <-> v = VStr s.
Proof.
  destruct v; simpl; try (split; [discriminate | congruence]).
  rewrite String.eqb_eq. split; congruence.
Qed.

Lemma py_eq_str_false (v : value) (s : string) :
  py_eq_str v s = false <-> v <> VStr s.
Proof.
  rewrite <- py_eq_str_true. destruct (py_eq_str v s); split; congruence.
Qed.

(** C6: a ["downloading"] event whose three display fields are strings
    writes one line, carriage return first, with the fields right-aligned
    to widths 6, 8 and 6, no newline, and flushes; a ["finished"] event
    writes a newline and the post-processing message; any other status
    writes nothing. *)
Theorem progress_hook_output (d : gmap string value) :
  (forall pct spd eta,
     py_get d "status" VNone = VStr "downloading" ->
     py_get d "_percent_str" (VStr "") = VStr pct ->
     py_get d "_speed_str" (VStr "") = VStr spd ->
     py_get d "_eta_str" (VStr "") = VStr eta ->
     progress_hook d
     = Ok [Write Stdout
             (CR ++ "Downloading: " ++ rjust 6 (strip pct)
              ++ "  Speed: " ++ rjust 8 (strip spd)
              ++ "  ETA: " ++ rjust 6 (strip eta));
           Flush Stdout])
  /\ (py_get d "status" VNone = VStr "finished" ->
      progress_hook d
      = Ok [Write Stdout
              (LF ++ "Download finished, post-processing..." ++ LF)])
  /\ (py_get d "status" VNone <> VStr "downloading" ->
      py_get d "status" VNone <> VStr "finished" ->
      progress_hook d = Ok []).
Proof.
  unfold progress_hook. repeat split.
  - intros pct spd eta Hs Hp Hv He. rewrite Hs, Hp, Hv, He. simpl.
    unfold py_print. now rewrite append_nil_r.
  - intros Hs. rewrite Hs. simpl. unfold py_print. simpl. reflexivity.
  - intros Hd Hf.
    apply py_eq_str_false in Hd, Hf. now rewrite Hd, Hf.
Qed.

(** C7, as stated, fails: a field that is present but is not a string
    has no [strip] method, and the hook lets the error through. *)
Lemma progress_hook_raises_on_non_string :
  progress_hook event_none_percent = Raise AttributeError
  /\ ~ (forall d : gmap string value, exists out, progress_hook d = Ok out).
Proof.
  assert (Hr : progress_hook event_none_percent = Raise AttributeError)
    by reflexivity.
  split; [exact Hr|].
  intros Hall. destruct (Hall event_none_percent) as [out Hout].
  rewrite Hr in Hout. discriminate.
Qed.

(** C7, amended: the hook does not raise on an event whose status is
    not ["downloading"], whatever it carries, nor on a ["downloading"]
    event whose three display fields are each a string or missing; a
    missing field is rendered as an empty one. *)
Theorem progress_hook_no_raise_on_strings (d : gmap string value) :
  (py_get d "status" VNone = VStr "downloading" ->
   str_or_absent d "_percent_str"
   /\ str_or_absent d "_speed_str"
   /\ str_or_absent d "_eta_str") ->
  exists out, progress_hook d = Ok out
    /\ (py_get d "status" VNone = VStr "downloading" ->
        out = [Write Stdout
                 (downloading_line (field d "_percent_str")
                    (field d "_speed_str") (field d "_eta_str"));
               Flush Stdout])
    /\ (forall k, d !! k = None -> field d k = "").
Proof.
  intros Hfields. unfold progress_hook.
  assert (Hf : forall k, d !! k = None -> field d k = "")
    by (intros k Hk; unfold field; now rewrite Hk).
  destruct (py_eq_str (py_get d "status" VNone) "downloading") eqn:Hd.
  - apply py_eq_str_true in Hd. destruct (Hfields Hd) as (Hp & Hs & He).
    rewrite (py_strip_field _ _ Hp), (py_strip_field _ _ Hs),
      (py_strip_field _ _ He).
    eexists. split; [reflexivity|]. split; [|exact Hf].
    intros _. simpl. unfold py_print, downloading_line.
    now rewrite append_nil_r.
  - apply py_eq_str_false in Hd.
    destruct (py_eq_str (py_get d "status" VNone) "finished");
      eexists; (split; [reflexivity|]); (split; [|exact Hf]);
      intros Hdl; contradiction.
Qed.

(** ** Summary printer *)

Section SummaryFacts.
Context `{PyRepr}.

Lemma print_entries_present (ydl : Engine) (es : list value) :
  Forall entry_ok es ->
  print_entries ydl es
  = ((fun v => Write Stdout (block_of ydl v ++ LF))
       <$> List.filter py_truthy es, Ok tt).
Proof.
  induction 1 as [|v es Hv _ IH]; [reflexivity|].
  simpl. destruct Hv as [->|[e ->]]; simpl.
  - exact IH.
  - destruct (size e); [exact IH|].
    rewrite IH. reflexivity.
Qed.

Lemma filter_complement_length {A} (f : A -> bool) (l : list A) :
  (length (List.filter f l)
   + length (List.filter (fun x => negb (f x)) l) = length l)%nat.
Proof.
  induction l as [|x l IH]; [reflexivity|].
  simpl. destruct (f x); simpl; lia.
Qed.

(** C8: no result prints the single line "Nothing was downloaded.";
    a single item prints one block, "Saved: title" and then the
    resolved path; a playlist prints one header line with its title,
    "(unknown)" when it has none, and then one block for each present
    entry and nothing for a skipped one, so that three entries of
    which one is skipped give the header and two blocks. *)
Theorem summary_shapes (ydl : Engine) :
  print_summary ydl VNone
  = ([Write Stdout ("Nothing was downloaded." ++ LF)], Ok tt)
  /\ (forall d,
        py_get d "_type" VNone <> VStr "playlist" ->
        print_summary ydl (VDict d)
        = ([Write Stdout
              (LF ++ "Saved: "
               ++ py_str (py_get d "title" (VStr "Unknown Title"))
               ++ LF ++ " -> " ++ prepare_filename ydl d ++ LF)],
           Ok tt))
  /\ (forall d es,
        py_get d "_type" VNone = VStr "playlist" ->
        py_get d "entries" (VList []) = VList es ->
        Forall entry_ok es ->
        print_summary ydl (VDict d)
        = (Write Stdout
             (LF ++ "Playlist: "
              ++ py_str (py_get d "title" (VStr "(unknown)")) ++ LF)
           :: ((fun v => Write Stdout (block_of ydl v ++ LF))
                 <$> List.filter py_truthy es),
           Ok tt)
        /\ (d !! "title" = None ->
            py_str (py_get d "title" (VStr "(unknown)")) = "(unknown)")
        /\ (length es = 3%nat ->
            length (List.filter (fun v => negb (py_truthy v)) es) = 1%nat ->
            length (print_summary ydl (VDict d)).1 = (1 + 2)%nat)).
Proof.
  split; [reflexivity|]. split.
  - intros d Ht. apply py_eq_str_false in Ht.
    unfold print_summary. rewrite Ht. simpl. unfold py_print.
    now rewrite !append_assoc.
  - intros d es Ht He Hes.
    assert (Hout : print_summary ydl (VDict d)
              = (Write Stdout
                   (LF ++ "Playlist: "
                    ++ py_str (py_get d "title" (VStr "(unknown)")) ++ LF)
                 :: ((fun v => Write Stdout (block_of ydl v ++ LF))
                       <$> List.filter py_truthy es),
                 Ok tt)).
    { apply py_eq_str_true in Ht.
      unfold print_summary. rewrite Ht, He. simpl.
      rewrite (print_entries_present _ _ Hes). unfold py_print. simpl.
      now rewrite !append_assoc. }
    split; [exact Hout|]. split.
    + intros Hn. unfold py_get. now rewrite Hn.
    + intros H3 H1. rewrite Hout. simpl. rewrite length_fmap.
      pose proof (filter_complement_length py_truthy es). lia.
Qed.

End SummaryFacts.

(** ** Exit status *)

Lemma progress_hook_on_stdout (d : gmap string value) (out : list io) :
  progress_hook d = Ok out -> Forall on_stdout out.
Proof.
  unfold progress_hook.
  destruct (py_eq_str (py_get d "status" VNone) "downloading").
  - destruct (py_strip (py_get d "_percent_str" (VStr ""))) as [[p|? ?]|];
      try discriminate;
      destruct (py_strip (py_get d "_speed_str" (VStr ""))) as [[s|? ?]|];
      try discriminate;
      destruct (py_strip (py_get d "_eta_str" (VStr ""))) as [[e|? ?]|];
      try discriminate.
    simpl. intros [= <-].
    constructor; [right; now eexists|].
    constructor; [now left | constructor].
  - destruct (py_eq_str (py_get d "status" VNone) "finished");
      intros [= <-]; [|constructor].
    constructor; [right; now eexists | constructor].
Qed.

Lemma call_hooks_on_stdout (hs : list callable) (d : gmap string value) :
  Forall on_stdout (call_hooks hs d).1.
Proof.
  induction hs as [|h hs IH]; [constructor|].
  simpl. destruct h. simpl.
  destruct (progress_hook d) as [out|x] eqn:Hh; [|constructor].
  destruct (call_hooks hs d) as [out' e]. simpl in *.
  apply Forall_app. split; [now apply (progress_hook_on_stdout d) | exact IH].
Qed.

(** While the engine runs, the program writes to standard output only. *)
Lemma run_engine_on_stdout (hs : list callable) (r : engine_run) :
  Forall on_stdout (run_engine hs r).1.
Proof.
  induction r as [o|d k IH]; [constructor|].
  simpl. pose proof (call_hooks_on_stdout hs d) as Hc.
  destruct (call_hooks hs d) as [out e].
  specialize (IH e). destruct (run_engine hs (k e)) as [out' o]. simpl in *.
  apply Forall_app. now split.
Qed.

Section ExitStatus.
Context `{OsPath} `{PyRepr}.
Variable parse_args : list string -> parse_result.
Variable mkdir : string -> bool.

(** The hook is registered in every configuration, and it is the only
    one. *)
Lemma build_opts_hooks (a : Args) (opts : gmap string value) :
  build_opts a = Ok opts -> hooks_of opts = [Fprogress_hook].
Proof. build_cases a; intros [= <-]; reflexivity. Qed.

(** How a run goes, by what happens at start-up and in the engine
    call. *)
Lemma script_cases (yt_dlp : option Engine) (argv : list string) :
  (yt_dlp = None
   /\ script parse_args mkdir yt_dlp argv
      = ([Write Stderr (import_error_message ++ LF)], Exited 1))
  \/ (exists out, parse_args argv = UsageError out
        /\ script parse_args mkdir yt_dlp argv = (out, Exited 2))
  \/ (exists out, parse_args argv = HelpRequested out
        /\ script parse_args mkdir yt_dlp argv = (out, Exited 0))
  \/ (mkdir_fails parse_args mkdir yt_dlp argv
      /\ script parse_args mkdir yt_dlp argv = ([], Uncaught UncaughtOSError))
  \/ (exists ydl progress o,
        yt_dlp = Some ydl
        /\ engine_call parse_args mkdir yt_dlp argv progress o
        /\ script parse_args mkdir yt_dlp argv
           = match o with
             | RaisedDownloadError e =>
                 ((progress
                   ++ [Write Stderr (LF ++ "DownloadError: " ++ e ++ LF)])%list,
                  Exited 1)
             | RaisedException e =>
                 ((progress
                   ++ [Write Stderr (LF ++ "Unexpected error: " ++ e ++ LF)])%list,
                  Exited 1)
             | RaisedBaseException code =>
                 (progress, Uncaught (UncaughtBaseException code))
             | Returned info =>
                 ((progress ++ (print_summary ydl info).1)%list,
                  match (print_summary ydl info).2 with
                  | Ok _ => Exited 0
                  | Raise e => Uncaught (UncaughtExn e)
                  end)
             end).
Proof.
  unfold script, main. destruct yt_dlp as [ydl|]; [|now left].
  right. destruct (parse_args argv) as [a|out|out] eqn:Hp.
  2:{ left. now exists out. }
  2:{ right. left. now exists out. }
  right. right.
  destruct (mkdir (expanduser (output a))) eqn:Hm.
  2:{ left. split; [|reflexivity]. now exists ydl, a. }
  right. destruct (build_opts_total a) as [opts Hb]. rewrite Hb.
  destruct (run_engine (hooks_of opts) (extract_info ydl opts (url a)))
    as [progress o] eqn:Hr.
  exists ydl, progress, o. split; [reflexivity|]. split.
  { exists ydl, a, opts. now rewrite Hb. }
  destruct o as [info|e|e|code]; unfold py_print; rewrite ?append_assoc;
    try reflexivity.
  now destruct (print_summary ydl info) as [out [[]|x]].
Qed.

(** One run has one engine call. *)
Lemma engine_call_unique (yt_dlp : option Engine) (argv : list string)
    (p p' : list io) (o o' : engine_outcome) :
  engine_call parse_args mkdir yt_dlp argv p o ->
  engine_call parse_args mkdir yt_dlp argv p' o' ->
  p = p' /\ o = o'.
Proof.
  intros (ydl & a & opts & -> & Hp & _ & Hb & Hr)
         (ydl' & a' & opts' & [= <-] & Hp' & _ & Hb' & Hr').
  rewrite Hp in Hp'. injection Hp' as <-.
  rewrite Hb in Hb'. injection Hb' as <-.
  rewrite Hr in Hr'. now injection Hr' as <- <-.
Qed.

Lemma engine_call_not_mkdir_fails (yt_dlp : option Engine)
    (argv : list string) (p : list io) (o : engine_outcome) :
  engine_call parse_args mkdir yt_dlp argv p o ->
  ~ mkdir_fails parse_args mkdir yt_dlp argv.
Proof.
  intros (ydl & a & opts & -> & Hp & Hm & _) (ydl' & a' & _ & Hp' & Hm').
  rewrite Hp in Hp'. injection Hp' as <-. congruence.
Qed.

(** The run of an engine call that ended with [o]. *)
Lemma script_engine_call (yt_dlp : option Engine) (argv : list string)
    (ydl : Engine) (progress : list io) (o : engine_outcome) :
  yt_dlp = Some ydl ->
  engine_call parse_args mkdir yt_dlp argv progress o ->
  script parse_args mkdir yt_dlp argv
  = match o with
    | RaisedDownloadError e =>
        ((progress
          ++ [Write Stderr (LF ++ "DownloadError: " ++ e ++ LF)])%list,
         Exited 1)
    | RaisedException e =>
        ((progress
          ++ [Write Stderr (LF ++ "Unexpected error: " ++ e ++ LF)])%list,
         Exited 1)
    | RaisedBaseException code =>
        (progress, Uncaught (UncaughtBaseException code))
    | Returned info =>
        ((progress ++ (print_summary ydl info).1)%list,
         match (print_summary ydl info).2 with
         | Ok _ => Exited 0
         | Raise e => Uncaught (UncaughtExn e)
         end)
    end.
Proof.
  intros Hy Hc.
  destruct (script_cases yt_dlp argv)
    as [[Hn _]|[(out & Hu & _)|[(out & Hu & _)|[[Hm _]|
        (ydl' & p' & o' & Hy' & Hc' & Hs)]]]].
  - congruence.
  - destruct Hc as (? & ? & ? & _ & Hp & _). congruence.
  - destruct Hc as (? & ? & ? & _ & Hp & _). congruence.
  - now destruct (engine_call_not_mkdir_fails _ _ _ _ Hc).
  - destruct (engine_call_unique _ _ _ _ _ _ Hc Hc') as [<- <-].
    rewrite Hy in Hy'. injection Hy' as <-. exact Hs.
Qed.

(** C9, amended: the run ends with status 0 when the engine returns,
    also when it returns no result. The program exits with status 1,
    after one message on standard error, in exactly three cases: the
    engine module cannot be imported (reported with the installation
    message whatever the command line is), the engine raises a download
    error, the engine raises any other exception. The process also ends
    with status 1, through the interpreter, when an exception is raised
    outside the engine call: the output directory cannot be made, or
    printing the summary fails; and when the engine lets through an
    exit with that status. These are all the runs that end with
    status 1. *)
Theorem exit_status (yt_dlp : option Engine) (argv : list string) :
  (yt_dlp = None ->
   script parse_args mkdir yt_dlp argv
   = ([Write Stderr (import_error_message ++ LF)], Exited 1))
  /\ (forall progress,
        engine_call parse_args mkdir yt_dlp argv progress (Returned VNone) ->
        script parse_args mkdir yt_dlp argv
        = ((progress ++ [Write Stdout ("Nothing was downloaded." ++ LF)])%list,
           Exited 0))
  /\ (forall ydl info progress out,
        yt_dlp = Some ydl ->
        engine_call parse_args mkdir yt_dlp argv progress (Returned info) ->
        print_summary ydl info = (out, Ok tt) ->
        script parse_args mkdir yt_dlp argv
        = ((progress ++ out)%list, Exited 0))
  /\ (forall e progress,
        engine_call parse_args mkdir yt_dlp argv progress
          (RaisedDownloadError e) ->
        script parse_args mkdir yt_dlp argv
        = ((progress
            ++ [Write Stderr (LF ++ "DownloadError: " ++ e ++ LF)])%list,
           Exited 1))
  /\ (forall e progress,
        engine_call parse_args mkdir yt_dlp argv progress
          (RaisedException e) ->
        script parse_args mkdir yt_dlp argv
        = ((progress
            ++ [Write Stderr (LF ++ "Unexpected error: " ++ e ++ LF)])%list,
           Exited 1))
  /\ ((script parse_args mkdir yt_dlp argv).2 = Exited 1 <->
      yt_dlp = None
      \/ (exists e progress,
            engine_call parse_args mkdir yt_dlp argv progress
              (RaisedDownloadError e))
      \/ (exists e progress,
            engine_call parse_args mkdir yt_dlp argv progress
              (RaisedException e)))
  /\ (exit_code (script parse_args mkdir yt_dlp argv).2 = 1 <->
      yt_dlp = None
      \/ (exists e progress,
            engine_call parse_args mkdir yt_dlp argv progress
              (RaisedDownloadError e))
      \/ (exists e progress,
            engine_call parse_args mkdir yt_dlp argv progress
              (RaisedException e))
      \/ mkdir_fails parse_args mkdir yt_dlp argv
      \/ summary_fails parse_args mkdir yt_dlp argv
      \/ (exists progress,
            engine_call parse_args mkdir yt_dlp argv progress
              (RaisedBaseException 1))).
Proof.
  split; [intros ->; reflexivity|].
  split.
  { intros progress Hc. pose proof Hc as (ydl & ? & ? & Hy & _).
    now rewrite (script_engine_call _ _ ydl progress _ Hy Hc). }
  split.
  { intros ydl info progress out Hy Hc Hs.
    rewrite (script_engine_call _ _ ydl progress (Returned info) Hy Hc).
    now rewrite Hs. }
  split.
  { intros e progress Hc. pose proof Hc as (ydl & ? & ? & Hy & _).
    now rewrite (script_engine_call _ _ ydl progress _ Hy Hc). }
  split.
  { intros e progress Hc. pose proof Hc as (ydl & ? & ? & Hy & _).
    now rewrite (script_engine_call _ _ ydl progress _ Hy Hc). }
  split.
  - split.
    + destruct (script_cases yt_dlp argv)
        as [[Hn _]|[(out & _ & ->)|[(out & _ & ->)|[[_ ->]|
            (ydl & p & o & Hy & Hc & ->)]]]];
        [now left | discriminate | discriminate | discriminate |].
      destruct o as [info|e|e|code]; simpl.
      * destruct ((print_summary ydl info).2); discriminate.
      * intros _. right. left. now exists e, p.
      * intros _. right. right. now exists e, p.
      * discriminate.
    + intros [->|[(e & p & Hc)|(e & p & Hc)]]; [reflexivity| |];
        pose proof Hc as (ydl & ? & ? & Hy & _);
        now rewrite (script_engine_call _ _ ydl p _ Hy Hc).
  - split.
    + destruct (script_cases yt_dlp argv)
        as [[Hn _]|[(out & _ & ->)|[(out & _ & ->)|[[Hm ->]|
            (ydl & p & o & Hy & Hc & ->)]]]];
        [now left | discriminate | discriminate | |].
      { intros _. do 3 right. now left. }
      destruct o as [info|e|e|code]; simpl.
      * destruct (print_summary ydl info) as [out [[]|x]] eqn:Hs; simpl;
          [discriminate|].
        intros _. do 4 right. left. now exists ydl, p, info, out, x.
      * intros _. right. left. now exists e, p.
      * intros _. right. right. left. now exists e, p.
      * intros ->. do 5 right. now exists p.
    + intros [->|[(e & p & Hc)|[(e & p & Hc)|[Hm|[Hs|(p & Hc)]]]]].
      * reflexivity.
      * pose proof Hc as (ydl & ? & ? & Hy & _).
        now rewrite (script_engine_call _ _ ydl p _ Hy Hc).
      * pose proof Hc as (ydl & ? & ? & Hy & _).
        now rewrite (script_engine_call _ _ ydl p _ Hy Hc).
      * destruct (script_cases yt_dlp argv)
          as [[Hn _]|[(out & Hu & _)|[(out & Hu & _)|[[_ ->]|
              (ydl & p & o & Hy & Hc & _)]]]]; try reflexivity.
        -- destruct Hm as (? & ? & Hy & _). congruence.
        -- destruct Hm as (? & ? & _ & Hp & _). congruence.
        -- destruct Hm as (? & ? & _ & Hp & _). congruence.
        -- now destruct (engine_call_not_mkdir_fails _ _ _ _ Hc).
      * destruct Hs as (ydl & p & info & out & x & Hy & Hc & Hs).
        rewrite (script_engine_call _ _ ydl p _ Hy Hc). now rewrite Hs.
      * pose proof Hc as (ydl & ? & ? & Hy & _).
        now rewrite (script_engine_call _ _ ydl p _ Hy Hc).
Qed.

End ExitStatus.

(** * Further properties *)

(** ** Configuration synthesis *)

Lemma append_inj_r (s s' t : string) : s ++ t = s' ++ t -> s = s'.
Proof.
  intros Heq.
  assert (Hlen : String.length s = String.length s').
  { apply (f_equal String.length) in Heq.
    rewrite !length_app_string in Heq. lia. }
  revert s' Hlen Heq.
  induction s as [|c s IH]; intros [|c' s'] Hlen Heq;
    try discriminate; [reflexivity|].
  change (String c (s ++ t) = String c' (s' ++ t)) in Heq.
  injection Heq as -> Heq. f_equal. apply IH; [|exact Heq].
  simpl in Hlen. congruence.
Qed.

(** The capped expressions of two caps differ, and a capped expression
    is not the uncapped one. *)
Lemma video_fmt_inj (r r' : option Z) :
  r <> Some 0 -> r' <> Some 0 -> video_fmt r = video_fmt r' -> r = r'.
Proof.
  intros Hr Hr'. unfold video_fmt.
  rewrite (resolution_truthy_nonzero _ Hr), (resolution_truthy_nonzero _ Hr').
  destruct r as [h|], r' as [h'|]; simpl; intros Heq; try reflexivity.
  - apply (inj (String.app "bestvideo[ext=mp4][height<=")) in Heq.
    apply append_inj_r in Heq.
    apply (inj pretty) in Heq. now subst.
  - apply (inj (String.app "bestvideo[ext=mp4]")) in Heq.
    cbv [String.append] in Heq. discriminate.
  - apply (inj (String.app "bestvideo[ext=mp4]")) in Heq.
    cbv [String.append] in Heq. discriminate.
Qed.

Section BuildOptsMore.
Context `{OsPath}.

Lemma video_format_lookup (a : Args) :
  audio a = false ->
  exists opts, build_opts a = Ok opts
    /\ opts !! "format" = Some (VStr (video_fmt (resolution a))).
Proof. intros Ha. unfold video_fmt. build_cases a; by_lookup. Qed.

(** X1: the dictionary has the fourteen common keys, plus
    ["merge_output_format"] exactly in video mode, plus
    ["postprocessors"] exactly when there is a step to run. *)
Theorem build_opts_keys (a : Args) :
  exists opts, build_opts a = Ok opts
    /\ dom opts
       = common_keys
         ∪ (if audio a then {["postprocessors"]}
            else {["merge_output_format"]}
                 ∪ (if embed_meta a || embed_thumb a
                    then {["postprocessors"]} else ∅)).
Proof.
  build_cases a; (eexists; split; [reflexivity|]);
    unfold py_update, retry_items, base_opts, common_keys;
    cbn [fold_left list_to_map foldr fst snd list_to_set orb];
    rewrite ?dom_insert_L, ?dom_empty_L; set_solver.
Qed.

(** X2: the URL and the [--video] flag never reach the dictionary; in
    video mode the audio format and quality are ignored, in audio mode
    the height cap is. *)
Theorem build_opts_ignored_fields
    u u' o t q v v' af af' aq aq' r r' ap sn ie em et re ti co :
  build_opts (mkArgs u o t q false v af aq r ap sn ie em et re ti co)
  = build_opts (mkArgs u' o t q false v' af' aq' r ap sn ie em et re ti co)
  /\ build_opts (mkArgs u o t q true v af aq r ap sn ie em et re ti co)
     = build_opts (mkArgs u' o t q true v' af aq r' ap sn ie em et re ti co).
Proof. split; reflexivity. Qed.

(** X3: in video mode the format expression tells the height cap: two
    configurations with different caps (a cap of 0 set aside, which
    counts as none) get different expressions. *)
Theorem video_format_determines_cap (a a' : Args) :
  audio a = false -> audio a' = false ->
  resolution a <> Some 0 -> resolution a' <> Some 0 ->
  resolution a <> resolution a' ->
  exists opts opts', build_opts a = Ok opts /\ build_opts a' = Ok opts'
    /\ opts !! "format" <> opts' !! "format".
Proof.
  intros Ha Ha' Hr Hr' Hne.
  destruct (video_format_lookup a Ha) as (opts & Hb & Hf).
  destruct (video_format_lookup a' Ha') as (opts' & Hb' & Hf').
  exists opts, opts'. split; [exact Hb|]. split; [exact Hb'|].
  rewrite Hf, Hf'. intros [= Heq].
  apply Hne. now apply video_fmt_inj.
Qed.

End BuildOptsMore.

(** ** Progress reporter *)

Lemma append_cons (c : ascii) (s t : string) :
  String c s ++ t = String c (s ++ t).
Proof. reflexivity. Qed.

Lemma lstrip_all_space_app (l s : string) :
  all_space l = true -> lstrip (l ++ s) = lstrip s.
Proof.
  induction l as [|c l IH]; [reflexivity|].
  simpl. intros [Hc Hl]%andb_prop. rewrite Hc. now apply IH.
Qed.

Lemma rstrip_all_space (r : string) : all_space r = true -> rstrip r = "".
Proof.
  induction r as [|c r IH]; [reflexivity|].
  simpl. intros [Hc Hr]%andb_prop. now rewrite (IH Hr), Hc.
Qed.

Lemma rstrip_app (a b : string) :
  rstrip (a ++ b)
  = match rstrip b with
    | "" => rstrip a
    | String c r => a ++ String c r
    end.
Proof.
  induction a as [|x a IH].
  - change ("" ++ b) with b. now destruct (rstrip b).
  - rewrite append_cons. simpl. rewrite IH.
    destruct (rstrip b) as [|c r]; [reflexivity|].
    rewrite ?append_cons. now destruct a.
Qed.

(** Whitespace around a field does not survive [strip]. *)
Lemma strip_padding (l s r : string) :
  all_space l = true -> all_space r = true ->
  strip (l ++ s ++ r) = strip s.
Proof.
  intros Hl Hr. unfold strip.
  rewrite rstrip_app, (rstrip_app s r), (rstrip_all_space r Hr).
  destruct (rstrip s) as [|c t] eqn:Hs.
  - now rewrite (rstrip_all_space l Hl).
  - now rewrite lstrip_all_space_app.
Qed.

Lemma py_get_insert_eq (d : gmap string value) k v dflt :
  py_get (<[k := v]> d) k dflt = v.
Proof. unfold py_get. now rewrite lookup_insert_eq. Qed.

Lemma py_get_insert_ne (d : gmap string value) k k' v dflt :
  k <> k' -> py_get (<[k := v]> d) k' dflt = py_get d k' dflt.
Proof. intros Hk. unfold py_get. now rewrite lookup_insert_ne. Qed.

Lemma py_strip_field_cases (d : gmap string value) (k : string) :
  (str_or_absent d k /\ has_strip d k
   /\ py_strip (py_get d k (VStr "")) = Ok (TStr (strip (field d k))))
  \/ (~ str_or_absent d k /\ has_strip d k
      /\ exists m b, py_strip (py_get d k (VStr "")) = Ok (TBytes m b))
  \/ (~ str_or_absent d k /\ ~ has_strip d k
      /\ py_strip (py_get d k (VStr "")) = Raise AttributeError).
Proof.
  unfold str_or_absent, has_strip, py_get, field.
  destruct (d !! k) as [[]|]; simpl; eauto 8.
Qed.

Lemma progress_hook_downloading (d : gmap string value) :
  py_get d "status" VNone = VStr "downloading" ->
  str_or_absent d "_percent_str" ->
  str_or_absent d "_speed_str" ->
  str_or_absent d "_eta_str" ->
  progress_hook d
  = Ok [Write Stdout
          (downloading_line (field d "_percent_str")
             (field d "_speed_str") (field d "_eta_str"));
        Flush Stdout].
Proof.
  intros Hd Hp Hs He. unfold progress_hook.
  rewrite Hd, (py_strip_field _ _ Hp), (py_strip_field _ _ Hs),
    (py_strip_field _ _ He).
  simpl. unfold py_print, downloading_line. now rewrite append_nil_r.
Qed.

(** X4: the hook raises exactly on a ["downloading"] event that has a
    display field which is present and is not a string. The error is
    [AttributeError] when some field has no [strip] method, and
    [TypeError], from the format step, when every field can be stripped
    but one is a [bytes] or [bytearray] object. Events of any other
    status never raise, whatever they carry. *)
Theorem progress_hook_raises_iff (d : gmap string value) (e : exn) :
  progress_hook d = Raise e <->
  py_get d "status" VNone = VStr "downloading"
  /\ ((e = AttributeError
       /\ ~ (has_strip d "_percent_str"
             /\ has_strip d "_speed_str"
             /\ has_strip d "_eta_str"))
      \/ (e = TypeError
          /\ (has_strip d "_percent_str"
              /\ has_strip d "_speed_str"
              /\ has_strip d "_eta_str")
          /\ ~ (str_or_absent d "_percent_str"
                /\ str_or_absent d "_speed_str"
                /\ str_or_absent d "_eta_str"))).
Proof.
  unfold progress_hook.
  destruct (py_eq_str (py_get d "status" VNone) "downloading") eqn:Hd.
  - apply py_eq_str_true in Hd.
    destruct (py_strip_field_cases d "_percent_str")
      as [(Hp & Hp' & ->)|[(Hp & Hp' & mp & bp & ->)|(Hp & Hp' & ->)]],
      (py_strip_field_cases d "_speed_str")
      as [(Hs & Hs' & ->)|[(Hs & Hs' & ms & bs & ->)|(Hs & Hs' & ->)]],
      (py_strip_field_cases d "_eta_str")
      as [(He & He' & ->)|[(He & He' & me & be & ->)|(He & He' & ->)]];
      simpl;
      (split;
       [ intros Heq; split; [exact Hd|];
         first [ discriminate Heq
               | injection Heq as <-;
                 first [ left; split; [reflexivity | tauto]
                       | right; split; [reflexivity | tauto] ] ]
       | intros (_ & [(-> & Hn) | (-> & Hh & Hn)]);
         first [ reflexivity | exfalso; tauto ] ]).
  - apply py_eq_str_false in Hd.
    destruct (py_eq_str (py_get d "status" VNone) "finished");
      (split; [discriminate | intros (Hs & _); contradiction]).
Qed.

(** X5: the downloading line is 30 fixed characters and three fields
    that are never cut, so with fields no wider than 6, 8 and 6 it is
    always 50 characters long and one line covers the previous one. *)
Theorem downloading_line_width (d : gmap string value) :
  py_get d "status" VNone = VStr "downloading" ->
  str_or_absent d "_percent_str" ->
  str_or_absent d "_speed_str" ->
  str_or_absent d "_eta_str" ->
  let pct := strip (field d "_percent_str") in
  let spd := strip (field d "_speed_str") in
  let eta := strip (field d "_eta_str") in
  exists line, progress_hook d = Ok [Write Stdout line; Flush Stdout]
    /\ String.length line
       = (30 + Nat.max 6 (String.length pct) + Nat.max 8 (String.length spd)
          + Nat.max 6 (String.length eta))%nat
    /\ ((String.length pct <= 6)%nat -> (String.length spd <= 8)%nat ->
        (String.length eta <= 6)%nat -> String.length line = 50%nat).
Proof.
  intros Hd Hp Hs He pct spd eta.
  eexists. split; [now apply progress_hook_downloading|].
  assert (Hlen : String.length
                   (downloading_line (field d "_percent_str")
                      (field d "_speed_str") (field d "_eta_str"))
                 = (30 + Nat.max 6 (String.length pct)
                    + Nat.max 8 (String.length spd)
                    + Nat.max 6 (String.length eta))%nat).
  { unfold downloading_line. rewrite !length_app_string, !rjust_length.
    subst pct spd eta. simpl String.length. lia. }
  split; [exact Hlen|]. intros. rewrite Hlen. lia.
Qed.

(** X6: whitespace around a display field does not change what the
    hook writes. *)
Theorem progress_hook_padding (d : gmap string value) (k l s r : string) :
  display_key k ->
  all_space l = true -> all_space r = true ->
  progress_hook (<[k := VStr (l ++ s ++ r)]> d)
  = progress_hook (<[k := VStr s]> d).
Proof.
  intros Hk Hl Hr. unfold progress_hook.
  destruct Hk as [-> | [-> | ->]];
    rewrite ?py_get_insert_eq, ?py_get_insert_ne by discriminate;
    simpl; now rewrite (strip_padding l s r Hl Hr).
Qed.

(** ** Summary printer *)

Section SummaryMore.
Context `{PyRepr}.

Lemma print_entries_stdout (ydl : Engine) (es : list value) :
  Forall stdout_write (print_entries ydl es).1.
Proof.
  induction es as [|e es IH]; [constructor|].
  simpl. destruct (py_truthy e); [|exact IH].
  destruct (summarize ydl e) as [s|x]; [|constructor].
  destruct (print_entries ydl es) as [out r]. simpl in *.
  constructor; [now eexists | exact IH].
Qed.

Lemma print_entries_falsy (ydl : Engine) (es : list value) :
  Forall (fun v => py_truthy v = false) es ->
  print_entries ydl es = ([], Ok tt).
Proof.
  induction 1 as [|v es Hv _ IH]; [reflexivity|].
  simpl. now rewrite Hv.
Qed.

Lemma print_entries_app (ydl : Engine) (pre rest : list value) :
  Forall entry_ok pre ->
  print_entries ydl (pre ++ rest)%list
  = ((block_line ydl <$> List.filter py_truthy pre)
       ++ (print_entries ydl rest).1,
     (print_entries ydl rest).2)%list.
Proof.
  induction 1 as [|v pre Hv _ IH]; simpl.
  - now destruct (print_entries ydl rest).
  - destruct Hv as [->|[e ->]]; simpl; [exact IH|].
    destruct (size e); [exact IH|].
    rewrite IH. reflexivity.
Qed.

Lemma playlist_summary (ydl : Engine) (d : gmap string value)
    (es : list value) :
  py_get d "_type" VNone = VStr "playlist" ->
  py_get d "entries" (VList []) = VList es ->
  print_summary ydl (VDict d)
  = (playlist_header d :: (print_entries ydl es).1,
     (print_entries ydl es).2).
Proof.
  intros Ht He. apply py_eq_str_true in Ht.
  unfold print_summary. rewrite Ht, He. simpl.
  destruct (print_entries ydl es) as [out r]. simpl.
  unfold playlist_header, py_print. simpl. now rewrite !append_assoc.
Qed.

Lemma print_summary_writes_stdout (ydl : Engine) (info : value) :
  Forall stdout_write (print_summary ydl info).1.
Proof.
  destruct info as [| | | |l|d| |]; simpl;
    try (constructor; [now eexists | constructor]); try constructor.
  destruct (py_eq_str (py_get d "_type" VNone) "playlist").
  - destruct (py_iter (py_get d "entries" (VList []))) as [es|x]; simpl.
    + pose proof (print_entries_stdout ydl es) as Hes.
      destruct (print_entries ydl es) as [out r]. simpl in *.
      constructor; [now eexists | exact Hes].
    + constructor; [now eexists | constructor].
  - constructor; [now eexists | constructor].
Qed.

(** X7: whatever the engine returns, and also when the summary fails
    half way, the summary writes to standard output only. *)
Theorem print_summary_stdout_only (ydl : Engine) (info : value) :
  Forall stdout_write (print_summary ydl info).1.
Proof. exact (print_summary_writes_stdout ydl info). Qed.

Lemma print_summary_ok (ydl : Engine) (info : value) :
  well_formed_info info ->
  exists out, print_summary ydl info = (out, Ok tt) /\ out <> [].
Proof.
  intros [->|(d & -> & [Ht|(es & He & Hes)])].
  - eexists. split; [reflexivity | discriminate].
  - apply py_eq_str_false in Ht. simpl. rewrite Ht.
    eexists. split; [reflexivity | discriminate].
  - destruct (py_eq_str (py_get d "_type" VNone) "playlist") eqn:Ht.
    + apply py_eq_str_true in Ht.
      rewrite (playlist_summary ydl d es Ht He),
        (print_entries_present ydl es Hes).
      eexists. split; [reflexivity | discriminate].
    + simpl. rewrite Ht. eexists. split; [reflexivity | discriminate].
Qed.

(** X8: on a well-formed result descriptor the summary never fails and
    always prints something. *)
Theorem print_summary_well_formed (ydl : Engine) (info : value) :
  well_formed_info info ->
  exists out, print_summary ydl info = (out, Ok tt) /\ out <> [].
Proof. exact (print_summary_ok ydl info). Qed.

(** X9: a playlist entry that is truthy but is not an item record stops
    the summary with [AttributeError], after the header and the blocks
    of the entries before it have been printed. *)
Theorem print_summary_bad_entry (ydl : Engine) (d : gmap string value)
    (pre post : list value) (v : value) :
  py_get d "_type" VNone = VStr "playlist" ->
  py_get d "entries" (VList []) = VList (pre ++ v :: post)%list ->
  Forall entry_ok pre ->
  py_truthy v = true ->
  (forall e, v <> VDict e) ->
  print_summary ydl (VDict d)
  = (playlist_header d :: (block_line ydl <$> List.filter py_truthy pre),
     Raise AttributeError).
Proof.
  intros Ht He Hpre Hv Hnd.
  rewrite (playlist_summary ydl d _ Ht He), (print_entries_app ydl _ _ Hpre).
  simpl. rewrite Hv.
  destruct v as [|b|z|s|l|e|f|m b];
    try (exfalso; exact (Hnd _ eq_refl)); simpl;
    now rewrite app_nil_r.
Qed.

(** X10: a playlist without an ["entries"] key, or whose entries are
    all falsy ([None], an empty record), prints the header alone; a
    playlist whose ["entries"] is [None] fails with [TypeError] once
    the header is printed. *)
Theorem playlist_without_items (ydl : Engine) (d : gmap string value) :
  py_get d "_type" VNone = VStr "playlist" ->
  (d !! "entries" = None ->
   print_summary ydl (VDict d) = ([playlist_header d], Ok tt))
  /\ (forall es,
        d !! "entries" = Some (VList es) ->
        Forall (fun v => py_truthy v = false) es ->
        print_summary ydl (VDict d) = ([playlist_header d], Ok tt))
  /\ (d !! "entries" = Some VNone ->
      print_summary ydl (VDict d) = ([playlist_header d], Raise TypeError)).
Proof.
  intros Ht. repeat split.
  - intros He.
    rewrite (playlist_summary ydl d [] Ht); [reflexivity|].
    unfold py_get. now rewrite He.
  - intros es He Hes.
    rewrite (playlist_summary ydl d es Ht), (print_entries_falsy ydl es Hes);
      [reflexivity|].
    unfold py_get. now rewrite He.
  - intros He. apply py_eq_str_true in Ht.
    assert (Hg : py_get d "entries" (VList []) = VNone)
      by (unfold py_get; now rewrite He).
    unfold print_summary. rewrite Ht, Hg. simpl.
    unfold playlist_header, py_print. now rewrite !append_assoc.
Qed.

(** X11: the title placeholders stand in for a missing ["title"] key
    only: a title that is present and [None] is printed as "None", for
    an item and for a playlist. *)
Theorem title_placeholders (ydl : Engine) (d : gmap string value) :
  (py_get d "_type" VNone <> VStr "playlist" ->
   (d !! "title" = None ->
    print_summary ydl (VDict d)
    = ([Write Stdout (LF ++ "Saved: Unknown Title" ++ LF ++ " -> "
                      ++ prepare_filename ydl d ++ LF)], Ok tt))
   /\ (d !! "title" = Some VNone ->
       print_summary ydl (VDict d)
       = ([Write Stdout (LF ++ "Saved: None" ++ LF ++ " -> "
                         ++ prepare_filename ydl d ++ LF)], Ok tt)))
  /\ (py_get d "_type" VNone = VStr "playlist" ->
      (d !! "title" = None ->
       exists rest r,
         print_summary ydl (VDict d)
         = (Write Stdout (LF ++ "Playlist: (unknown)" ++ LF) :: rest, r))
      /\ (d !! "title" = Some VNone ->
          exists rest r,
            print_summary ydl (VDict d)
            = (Write Stdout (LF ++ "Playlist: None" ++ LF) :: rest, r))).
Proof.
  split.
  - intros Ht. apply py_eq_str_false in Ht.
    split; intros Hn;
      unfold print_summary, summarize; rewrite Ht;
      unfold py_get; rewrite Hn; simpl; unfold py_print;
      now rewrite !append_assoc.
  - intros Ht. apply py_eq_str_true in Ht.
    split; intros Hn; unfold print_summary; rewrite Ht;
      (destruct (py_iter (py_get d "entries" (VList []))) as [es|x];
       [destruct (print_entries ydl es) as [out r]|]);
      unfold py_get; rewrite Hn; simpl;
      eexists; eexists; unfold py_print; simpl;
      rewrite ?append_assoc; reflexivity.
Qed.

End SummaryMore.

(** ** Run orchestration *)

Section MainMore.
Context `{OsPath} `{PyRepr}.
Variable parse_args : list string -> parse_result.
Variable mkdir : string -> bool.

(** X12: when the command line is rejected or the output directory
    cannot be made, the run does not depend on the engine: the download
    is never started. *)
Theorem startup_failure_skips_engine (ydl ydl' : Engine)
    (argv : list string) :
  (forall a, parse_args argv = Parsed a ->
             mkdir (expanduser (output a)) = false) ->
  script parse_args mkdir (Some ydl) argv
  = script parse_args mkdir (Some ydl') argv.
Proof.
  intros Hfail. unfold script, main.
  destruct (parse_args argv) as [a|out|out]; try reflexivity.
  now rewrite (Hfail a eq_refl).
Qed.

Lemma engine_call_on_stdout (yt_dlp : option Engine) (argv : list string)
    (progress : list io) (o : engine_outcome) :
  engine_call parse_args mkdir yt_dlp argv progress o ->
  Forall on_stdout progress.
Proof.
  intros (ydl & a & opts & _ & _ & _ & _ & Hr).
  pose proof (run_engine_on_stdout (hooks_of opts)
                (extract_info ydl opts (url a))) as Hout.
  now rewrite Hr in Hout.
Qed.

Lemma stdout_write_on_stdout (out : list io) :
  Forall stdout_write out -> Forall on_stdout out.
Proof.
  intros Hout. eapply Forall_impl; [exact Hout|].
  intros ev Hev. now right.
Qed.

(** X13: a run that the program ends with status 1 has written one
    message on standard error, as the last thing it wrote; what it
    wrote before is the progress display, on standard output. A run on
    an accepted command line that ends otherwise has written to
    standard output only. *)
Theorem output_streams (yt_dlp : option Engine) (argv : list string) :
  ((script parse_args mkdir yt_dlp argv).2 = Exited 1 ->
   exists progress msg,
     (script parse_args mkdir yt_dlp argv).1
     = (progress ++ [Write Stderr msg])%list
     /\ Forall on_stdout progress)
  /\ (forall a, parse_args argv = Parsed a ->
       (script parse_args mkdir yt_dlp argv).2 <> Exited 1 ->
       Forall on_stdout (script parse_args mkdir yt_dlp argv).1).
Proof.
  destruct (script_cases parse_args mkdir yt_dlp argv)
    as [[Hn ->]|[(out & Hu & ->)|[(out & Hu & ->)|[[Hm ->]|
        (ydl & p & o & Hy & Hc & ->)]]]].
  - split; [|intros a _ Hne; now destruct Hne].
    intros _. exists [], (import_error_message ++ LF).
    split; [reflexivity | constructor].
  - split; [discriminate | intros a Hp; congruence].
  - split; [discriminate | intros a Hp; congruence].
  - split; [discriminate | intros; constructor].
  - pose proof (engine_call_on_stdout _ _ _ _ Hc) as Hp.
    destruct o as [info|e|e|code]; simpl.
    + split.
      * destruct ((print_summary ydl info).2); discriminate.
      * intros a _ _. apply Forall_app. split; [exact Hp|].
        apply stdout_write_on_stdout, print_summary_writes_stdout.
    + split; [|intros a _ Hne; now destruct Hne].
      intros _. now exists p, (LF ++ "DownloadError: " ++ e ++ LF).
    + split; [|intros a _ Hne; now destruct Hne].
      intros _. now exists p, (LF ++ "Unexpected error: " ++ e ++ LF).
    + split; [discriminate | intros; exact Hp].
Qed.

(** X14: a run whose engine call returns a well-formed result
    descriptor exits with status 0; after the progress display it
    prints a summary that is not empty, all on standard output. *)
Theorem run_well_formed (yt_dlp : option Engine) (argv : list string)
    (progress : list io) (info : value) :
  engine_call parse_args mkdir yt_dlp argv progress (Returned info) ->
  well_formed_info info ->
  exists summary,
    script parse_args mkdir yt_dlp argv
    = ((progress ++ summary)%list, Exited 0)
    /\ summary <> [] /\ Forall stdout_write summary
    /\ Forall on_stdout progress.
Proof.
  intros Hc Hwf. pose proof Hc as (ydl & ? & ? & Hy & _).
  destruct (print_summary_ok ydl info Hwf) as (out & Hs & Hne).
  pose proof (print_summary_writes_stdout ydl info) as Hout.
  exists out.
  rewrite (script_engine_call parse_args mkdir _ _ ydl progress _ Hy Hc).
  rewrite Hs in *. repeat split; try assumption.
  now apply (engine_call_on_stdout _ _ _ _ Hc).
Qed.

End MainMore.

(** * The theorems at sample inputs *)

Example py_str_int_samples :
  py_str_int 720 = "720" /\ py_str_int 0 = "0" /\ py_str_int (-5) = "-5".
Proof. repeat split; reflexivity. Qed.

(** [-o ~/Downloads] with [HOME=/home/user] *)
Example sample_video_outtmpl :
  exists opts, @build_opts sample_path sample_video = Ok opts
    /\ opts !! "outtmpl"
       = Some (VDict (list_to_map
                 [("default", VStr "/home/user/Downloads/%(title)s.%(ext)s")]))
    /\ steps_of opts = [pp_metadata].
Proof. eexists. split; [reflexivity|]. split; vm_compute; reflexivity. Qed.

(** [--audio --audio-format flac --embed-meta]: extraction, then
    metadata, no thumbnail step. *)
Example sample_audio_steps :
  exists opts, @build_opts sample_path sample_audio = Ok opts
    /\ steps_of opts = [pp_extract_audio "flac" 0; pp_metadata]
    /\ step_key <$> steps_of opts
       = [Some "FFmpegExtractAudio"; Some "FFmpegMetadata"].
Proof. eexists. split; [reflexivity|]. split; vm_compute; reflexivity. Qed.

(** A [bytes] field passes [strip()] and fails in the f-string; a field
    without [strip] fails first, whatever the other fields are. *)
Example progress_hook_bytes_field :
  progress_hook (<["_percent_str" := VBytes false "45.2%"]> sample_event)
  = Raise TypeError
  /\ progress_hook (<["_eta_str" := VInt 30]>
                      (<["_percent_str" := VBytes false "45.2%"]> sample_event))
     = Raise AttributeError
  /\ progress_hook (<["_percent_str" := VBytes false "45.2%"]>
                      sample_finished_event)
     = Ok [Write Stdout (LF ++ "Download finished, post-processing..." ++ LF)].
Proof. repeat split; reflexivity. Qed.

Example strip_samples :
  strip "  45.2% " = "45.2%" /\ rjust 6 "45.2%" = " 45.2%"
  /\ rjust 6 "100.0%  " = "100.0%  ".
Proof. repeat split; reflexivity. Qed.


Lemma video_format_selection_witness :
  audio sample_video = false
  /\ resolution sample_video <> Some 0
  /\ exists opts, @build_opts sample_path sample_video = Ok opts
       /\ opts !! "format"
          = Some (VStr
              "bestvideo[ext=mp4][height<=720]+bestaudio[ext=m4a]/best[ext=mp4]/best")
       /\ opts !! "merge_output_format" = Some (VStr "mp4").
Proof.
  split; [reflexivity|]. split; [discriminate|].
  apply (@video_format_selection sample_path sample_video);
    [reflexivity | discriminate].
Defined.

Lemma audio_format_and_extraction_witness :
  audio sample_audio = true
  /\ exists opts rest, @build_opts sample_path sample_audio = Ok opts
       /\ opts !! "format" = Some (VStr "bestaudio/best")
       /\ opts !! "postprocessors"
          = Some (VList
                    (VDict (list_to_map
                              [("key", VStr "FFmpegExtractAudio");
                               ("preferredcodec", VStr "flac");
                               ("preferredquality", VStr "0")])
                     :: rest))
       /\ (audio_quality sample_audio = 0 ->
           py_str_int (audio_quality sample_audio) = "0").
Proof.
  split; [reflexivity|].
  apply (@audio_format_and_extraction sample_path sample_audio).
  reflexivity.
Defined.

Lemma progress_hook_output_witness :
  py_get sample_event "status" VNone = VStr "downloading"
  /\ py_get sample_event "_percent_str" (VStr "") = VStr "45.2%"
  /\ py_get sample_event "_speed_str" (VStr "") = VStr "1.2MiB/s"
  /\ py_get sample_event "_eta_str" (VStr "") = VStr "00:30"
  /\ progress_hook sample_event
     = Ok [Write Stdout
             (CR ++ "Downloading:  45.2%  Speed: 1.2MiB/s  ETA:  00:30");
           Flush Stdout].
Proof.
  repeat (split; [reflexivity|]).
  apply (proj1 (progress_hook_output sample_event) "45.2%" "1.2MiB/s" "00:30");
    reflexivity.
Defined.

Lemma progress_hook_no_raise_witness :
  (py_get event_status_only "status" VNone = VStr "downloading" ->
   str_or_absent event_status_only "_percent_str"
   /\ str_or_absent event_status_only "_speed_str"
   /\ str_or_absent event_status_only "_eta_str")
  /\ exists out, progress_hook event_status_only = Ok out
       /\ (py_get event_status_only "status" VNone = VStr "downloading" ->
           out = [Write Stdout
                    (downloading_line (field event_status_only "_percent_str")
                       (field event_status_only "_speed_str")
                       (field event_status_only "_eta_str"));
                  Flush Stdout])
       /\ (forall k, event_status_only !! k = None ->
                     field event_status_only k = "").
Proof.
  split; [intros _; repeat split; exact I|].
  apply (progress_hook_no_raise_on_strings event_status_only).
  intros _; repeat split; exact I.
Defined.

Lemma sample_entries_ok : Forall entry_ok sample_entries.
Proof.
  unfold sample_entries, entry_ok.
  constructor; [right; eexists; reflexivity|].
  constructor; [left; reflexivity|].
  constructor; [right; eexists; reflexivity|].
  constructor.
Defined.

Lemma summary_shapes_witness :
  py_get sample_playlist "_type" VNone = VStr "playlist"
  /\ py_get sample_playlist "entries" (VList []) = VList sample_entries
  /\ Forall entry_ok sample_entries
  /\ @print_summary sample_repr idle_engine (VDict sample_playlist)
     = ([Write Stdout (LF ++ "Playlist: Mix" ++ LF);
         Write Stdout ("Saved: First" ++ LF ++ " -> out.mp4" ++ LF);
         Write Stdout ("Saved: Third" ++ LF ++ " -> out.mp4" ++ LF)],
        Ok tt).
Proof.
  split; [reflexivity|]. split; [reflexivity|].
  split; [exact sample_entries_ok|].
  apply (proj1 (proj2 (proj2 (@summary_shapes sample_repr idle_engine))
                  sample_playlist sample_entries
                  eq_refl eq_refl sample_entries_ok)).
Defined.

(** The engine call of a run of [ytdl.py URL --audio ...] with the
    engine [ydl], when the directory can be made. *)
Lemma sample_engine_call (ydl : Engine) (p : list io) (o : engine_outcome) :
  (forall opts u,
     run_engine [Fprogress_hook] (extract_info ydl opts u) = (p, o)) ->
  engine_call (H := sample_path) (fun _ => Parsed sample_audio)
    (fun _ => true) (Some ydl) [] p o.
Proof.
  intros Hr. destruct (@build_opts_total sample_path sample_audio) as [opts Hb].
  exists ydl, sample_audio, opts. repeat split; [exact Hb|].
  rewrite (@build_opts_hooks sample_path _ _ Hb). apply Hr.
Qed.

Lemma exit_status_witness :
  engine_call (H := sample_path) (fun _ => Parsed sample_audio) (fun _ => true)
    (Some failing_engine) [] sample_progress
    (RaisedDownloadError "connection lost")
  /\ script (H := sample_path) (H0 := sample_repr)
       (fun _ => Parsed sample_audio) (fun _ => true) (Some failing_engine) []
     = ((sample_progress
         ++ [Write Stderr
               (LF ++ "DownloadError: " ++ "connection lost" ++ LF)])%list,
        Exited 1).
Proof.
  assert (Hc : engine_call (H := sample_path) (fun _ => Parsed sample_audio)
                 (fun _ => true) (Some failing_engine) [] sample_progress
                 (RaisedDownloadError "connection lost"))
    by (apply sample_engine_call; intros; reflexivity).
  split; [exact Hc|].
  apply (proj1 (proj2 (proj2 (proj2
           (@exit_status sample_path sample_repr
              (fun _ => Parsed sample_audio) (fun _ => true)
              (Some failing_engine) []))))).
  exact Hc.
Defined.

(** C9, as stated, fails: the output directory cannot be made, the
    engine is never called, and the process ends with status 1. *)
Lemma exit_status_fourth_case :
  exit_code
    (script (H := sample_path) (H0 := sample_repr)
       (fun _ => Parsed sample_audio) (fun _ => false)
       (Some idle_engine) []).2 = 1
  /\ ~ (Some idle_engine = None
        \/ (exists e progress,
              engine_call (H := sample_path) (fun _ => Parsed sample_audio)
                (fun _ => false) (Some idle_engine) [] progress
                (RaisedDownloadError e))
        \/ (exists e progress,
              engine_call (H := sample_path) (fun _ => Parsed sample_audio)
                (fun _ => false) (Some idle_engine) [] progress
                (RaisedException e))).
Proof.
  split; [reflexivity|].
  intros [Hn|[(e & p & Hc)|(e & p & Hc)]]; [discriminate| |];
    destruct Hc as (ydl & a & opts & _ & _ & Hm & _); discriminate.
Qed.

Lemma video_format_determines_cap_witness :
  audio sample_video = false /\ audio sample_video_1080 = false
  /\ resolution sample_video <> Some 0
  /\ resolution sample_video_1080 <> Some 0
  /\ resolution sample_video <> resolution sample_video_1080
  /\ exists opts opts',
       @build_opts sample_path sample_video = Ok opts
       /\ @build_opts sample_path sample_video_1080 = Ok opts'
       /\ opts !! "format" <> opts' !! "format".
Proof.
  repeat (split; [reflexivity || discriminate|]).
  apply (@video_format_determines_cap sample_path
           sample_video sample_video_1080);
    reflexivity || discriminate.
Defined.

Lemma downloading_line_width_witness :
  py_get sample_event "status" VNone = VStr "downloading"
  /\ str_or_absent sample_event "_percent_str"
  /\ str_or_absent sample_event "_speed_str"
  /\ str_or_absent sample_event "_eta_str"
  /\ exists line,
       progress_hook sample_event = Ok [Write Stdout line; Flush Stdout]
       /\ String.length line = 50%nat.
Proof.
  split; [reflexivity|]. repeat (split; [exact I|]).
  destruct (downloading_line_width sample_event eq_refl I I I)
    as (line & Hl & _ & Hfit).
  exists line. split; [exact Hl|].
  apply Hfit; vm_compute; repeat constructor.
Defined.

Lemma progress_hook_padding_witness :
  display_key "_percent_str"
  /\ all_space " " = true /\ all_space "  " = true
  /\ progress_hook (<["_percent_str" := VStr (" " ++ "45.2%" ++ "  ")]>
                      sample_event)
     = progress_hook (<["_percent_str" := VStr "45.2%"]> sample_event).
Proof.
  split; [now left|]. split; [reflexivity|]. split; [reflexivity|].
  apply (progress_hook_padding sample_event "_percent_str" " " "45.2%" "  ");
    [now left | reflexivity | reflexivity].
Defined.

Lemma sample_playlist_well_formed : well_formed_info (VDict sample_playlist).
Proof.
  right. exists sample_playlist. split; [reflexivity|].
  right. exists sample_entries. split; [reflexivity | exact sample_entries_ok].
Defined.

Lemma print_summary_well_formed_witness :
  well_formed_info (VDict sample_playlist)
  /\ exists out,
       @print_summary sample_repr idle_engine (VDict sample_playlist)
       = (out, Ok tt) /\ out <> [].
Proof.
  split; [exact sample_playlist_well_formed|].
  apply (@print_summary_well_formed sample_repr idle_engine).
  exact sample_playlist_well_formed.
Defined.

Lemma print_summary_bad_entry_witness :
  py_get sample_bad_playlist "_type" VNone = VStr "playlist"
  /\ py_get sample_bad_playlist "entries" (VList [])
     = VList ([VDict (list_to_map [("title", VStr "First")])]
              ++ VStr "oops" :: [VNone])%list
  /\ Forall entry_ok [VDict (list_to_map [("title", VStr "First")])]
  /\ py_truthy (VStr "oops") = true
  /\ (forall e, VStr "oops" <> VDict e)
  /\ @print_summary sample_repr idle_engine (VDict sample_bad_playlist)
     = ([Write Stdout (LF ++ "Playlist: Mix" ++ LF);
         Write Stdout ("Saved: First" ++ LF ++ " -> out.mp4" ++ LF)],
        Raise AttributeError).
Proof.
  assert (Hpre : Forall entry_ok
                   [VDict (list_to_map [("title", VStr "First")])])
    by (constructor; [right; eexists; reflexivity | constructor]).
  split; [reflexivity|]. split; [reflexivity|]. split; [exact Hpre|].
  split; [reflexivity|]. split; [intros e; discriminate|].
  exact (@print_summary_bad_entry sample_repr idle_engine sample_bad_playlist
           [VDict (list_to_map [("title", VStr "First")])] [VNone]
           (VStr "oops") eq_refl eq_refl Hpre eq_refl
           ltac:(intros e; discriminate)).
Defined.

Lemma playlist_without_items_witness :
  py_get sample_empty_playlist "_type" VNone = VStr "playlist"
  /\ sample_empty_playlist !! "entries" = None
  /\ @print_summary sample_repr idle_engine (VDict sample_empty_playlist)
     = ([Write Stdout (LF ++ "Playlist: Mix" ++ LF)], Ok tt).
Proof.
  split; [reflexivity|]. split; [reflexivity|].
  apply (proj1 (@playlist_without_items sample_repr idle_engine
                  sample_empty_playlist eq_refl)).
  reflexivity.
Defined.

Lemma title_placeholders_witness :
  py_get sample_untitled_item "_type" VNone <> VStr "playlist"
  /\ sample_untitled_item !! "title" = Some VNone
  /\ @print_summary sample_repr idle_engine (VDict sample_untitled_item)
     = ([Write Stdout (LF ++ "Saved: None" ++ LF ++ " -> "
                       ++ "out.mp4" ++ LF)], Ok tt).
Proof.
  split; [discriminate|]. split; [reflexivity|].
  apply (proj1 (@title_placeholders sample_repr idle_engine
                  sample_untitled_item));
    [discriminate | reflexivity].
Defined.

Lemma startup_failure_skips_engine_witness :
  (forall a, Parsed sample_audio = Parsed a ->
             (fun _ : string => false) (@expanduser sample_path (output a))
             = false)
  /\ script (H := sample_path) (H0 := sample_repr)
       (fun _ => Parsed sample_audio) (fun _ => false) (Some idle_engine) []
     = script (H := sample_path) (H0 := sample_repr)
         (fun _ => Parsed sample_audio) (fun _ => false)
         (Some failing_engine) [].
Proof.
  split; [reflexivity|].
  apply (@startup_failure_skips_engine sample_path sample_repr
           (fun _ => Parsed sample_audio) (fun _ => false)).
  reflexivity.
Defined.

Lemma output_streams_witness :
  (script (H := sample_path) (H0 := sample_repr)
     (fun _ => Parsed sample_audio) (fun _ => true)
     (Some failing_engine) []).2 = Exited 1
  /\ exists progress msg,
       (script (H := sample_path) (H0 := sample_repr)
          (fun _ => Parsed sample_audio) (fun _ => true)
          (Some failing_engine) []).1
       = (progress ++ [Write Stderr msg])%list
       /\ Forall on_stdout progress.
Proof.
  assert (Hst : (script (H := sample_path) (H0 := sample_repr)
                   (fun _ => Parsed sample_audio) (fun _ => true)
                   (Some failing_engine) []).2 = Exited 1)
    by (vm_compute; reflexivity).
  split; [exact Hst|].
  apply (proj1 (@output_streams sample_path sample_repr
                  (fun _ => Parsed sample_audio) (fun _ => true)
                  (Some failing_engine) [])).
  exact Hst.
Defined.

Lemma run_well_formed_witness :
  engine_call (H := sample_path) (fun _ => Parsed sample_audio)
    (fun _ => true) (Some playlist_engine) []
    (sample_progress
     ++ [Write Stdout (LF ++ "Download finished, post-processing..." ++ LF)])%list
    (Returned (VDict sample_playlist))
  /\ well_formed_info (VDict sample_playlist)
  /\ exists summary,
       script (H := sample_path) (H0 := sample_repr)
         (fun _ => Parsed sample_audio) (fun _ => true)
         (Some playlist_engine) []
       = (((sample_progress
            ++ [Write Stdout
                  (LF ++ "Download finished, post-processing..." ++ LF)])
           ++ summary)%list, Exited 0)
       /\ summary <> [] /\ Forall stdout_write summary
       /\ Forall on_stdout
            (sample_progress
             ++ [Write Stdout
                   (LF ++ "Download finished, post-processing..." ++ LF)])%list.
Proof.
  assert (Hc : engine_call (H := sample_path) (fun _ => Parsed sample_audio)
                 (fun _ => true) (Some playlist_engine) []
                 (sample_progress
                  ++ [Write Stdout
                        (LF ++ "Download finished, post-processing..." ++ LF)])%list
                 (Returned (VDict sample_playlist)))
    by (apply sample_engine_call; intros; reflexivity).
  split; [exact Hc|]. split; [exact sample_playlist_well_formed|].
  apply (@run_well_formed sample_path sample_repr
           (fun _ => Parsed sample_audio) (fun _ => true)
           (Some playlist_engine) [] _ (VDict sample_playlist));
    [exact Hc | exact sample_playlist_well_formed].
Defined.
